(** * Project Synapse: the keyword classifiers and the compensation policy

    A shallow embedding of the decision code of [tools.py]: the intent
    classifier and issue categorizer of [analyze_customer_situation], the
    categorizer of [provide_generic_solution], the severity scoring of
    [orchestrate_resolution_plan], and the compensation arithmetic of
    [gather_compensation_details], [negotiate_fair_compensation],
    [calculate_dynamic_refund_amount], [calculate_dynamic_compensation] and
    [offer_goodwill_voucher].

    Conventions of the embedding.
    - A Python [str] is a [string] of bytes (its UTF-8 encoding); the rupee
      sign is the three bytes E2 82 B9.  [str.lower] is modelled on the ASCII
      letters and leaves every other byte as it is.
    - Each tool returns a text built from a fixed template; a tool is modelled
      by the record of the values its template interpolates.
    - [random.choice] reads an explicit generator state that is threaded
      through the calls.
    - Amounts are integers ([Z]); [int(x)] truncates towards zero. *)

From Stdlib Require Import ZArith List Bool Ascii String Lia SpecFloat.
Import ListNotations.

Open Scope string_scope.

(** ** Python string primitives *)

Module PyStr.

Definition lower_char (c : ascii) : ascii :=
  let n := nat_of_ascii c in
  if (65 <=? n)%nat && (n <=? 90)%nat then ascii_of_nat (n + 32) else c.

(** [s.lower()] *)
Fixpoint lower (s : string) : string :=
  match s with
  | EmptyString => EmptyString
  | String c s' => String (lower_char c) (lower s')
  end.

(** [w in s] for two strings: [w] occurs in [s] at some position. *)
Fixpoint contains (w s : string) : bool :=
  prefix w s ||
  match s with
  | EmptyString => false
  | String _ s' => contains w s'
  end.

(** [any(w in s for w in ws)] *)
Definition any_in (ws : list string) (s : string) : bool :=
  existsb (fun w => contains w s) ws.

(** [s in ws] for a list of strings [ws]. *)
Definition mem (s : string) (ws : list string) : bool :=
  existsb (String.eqb s) ws.

(** The relational reading of [w in s]. *)
Definition Substring (w s : string) : Prop :=
  exists a b, s = a ++ w ++ b.

Definition AnyIn (ws : list string) (s : string) : Prop :=
  exists w, In w ws /\ Substring w s.

End PyStr.

Import PyStr.

(** ** Control flow of a function body

    A statement either falls through to the next statement with the local
    environment, returns a value, or raises. *)

Inductive exn : Type :=
| NameError (name : string)
| UnboundLocalError (name : string).

Inductive flow (R A : Type) : Type :=
| Next (a : A)
| Return (r : R)
| Raise (e : exn).

Arguments Next {R A} a.
Arguments Return {R A} r.
Arguments Raise {R A} e.

Definition and_then {R A B : Type} (s : flow R A) (k : A -> flow R B) : flow R B :=
  match s with
  | Next a => k a
  | Return r => Return r
  | Raise e => Raise e
  end.

Notation "s ;; k" := (and_then s k) (at level 61, right associativity).

(** ** [analyze_customer_situation] *)

Module Analyze.

Definition tracking_keywords : list string :=
  ["where"; "status"; "driver"; "eta"; "time"; "location"].

Definition problem_keywords : list string :=
  ["spill"; "wrong"; "damage"; "cold"; "missing"; "terrible"; "awful"; "bad";
   "broken"; "packaging"].

Definition evidence_needed_cases : list string :=
  ["spill"; "damage"; "wrong"; "packaging"; "quality"; "broken"; "mess"; "bad"].

(** The texts the function can return, by template. *)
Inductive report : Type :=
| TrackingRequestDetected
| ActualProblemDetected (issue_type : string) (needs_evidence : bool)
| GeneralInquiryDetected (customer_message : string)
| DynamicAnalysisComplete (issue_type severity action_urgency : string).

(** The [if]/[elif] chain of the problem branch. *)
Definition issue_type_of (message_lower : string) : string :=
  if any_in ["spill"; "damage"; "leak"; "mess"] message_lower then "spilled_food"
  else if any_in ["wrong"; "different"; "mistake"] message_lower then "wrong_order"
  else if any_in ["packaging"; "broken"; "damaged"] message_lower then "packaging_issue"
  else if any_in ["cold"; "lukewarm"] message_lower then "cold_food"
  else if any_in ["missing"; "forgot"] message_lower then "missing_items"
  else if any_in ["quality"; "bad"; "terrible"] message_lower then "quality_issue"
  else "general_problem".

(** The [if is_tracking_request: ... elif is_actual_problem: ... else: ...]
    statement.  The environment handed to the next statement is the binding
    of the local [issue_type], which only the problem branch assigns. *)
Definition intent_branches (customer_message : string)
  : flow report (option string) :=
  let message_lower := lower customer_message in
  let is_tracking_request :=
    any_in tracking_keywords message_lower
    && negb (any_in problem_keywords message_lower) in
  let is_actual_problem := any_in problem_keywords message_lower in
  if is_tracking_request then Return TrackingRequestDetected
  else if is_actual_problem then
    let needs_evidence := any_in evidence_needed_cases message_lower in
    let issue_type := issue_type_of message_lower in
    Return (ActualProblemDetected issue_type needs_evidence)
  else Return (GeneralInquiryDetected customer_message).

(** The statements written after that [if]: the severity classification and
    the last [return], whose template reads the names [empathy_response] and
    [compensation], bound nowhere in the module. *)
Definition severity_block (issue_type : option string) : flow report unit :=
  match issue_type with
  | None => Raise (UnboundLocalError "issue_type")
  | Some t =>
      let '(severity, action_urgency) :=
        if mem t ["spilled"; "damaged"] then
          ("CRITICAL", "IMMEDIATE FULL RESOLUTION")
        else if mem t ["wrong_order"; "missing_items"] then
          ("HIGH", "PRIORITY RESOLUTION")
        else if mem t ["late_delivery"; "cold_food"] then
          ("MEDIUM", "PROMPT RESOLUTION")
        else ("STANDARD", "STANDARD RESOLUTION") in
      Raise (NameError "empathy_response") ;;
      (fun _ : unit => Return (DynamicAnalysisComplete t severity action_urgency))
  end.

Definition analyze_customer_situation (customer_message : string)
  : flow report unit :=
  intent_branches customer_message ;; severity_block.

(** The intent a report stands for. *)
Inductive Intent : Type := TRACKING | PROBLEM | GENERAL.

Definition intent_of (r : report) : option Intent :=
  match r with
  | TrackingRequestDetected => Some TRACKING
  | ActualProblemDetected _ _ => Some PROBLEM
  | GeneralInquiryDetected _ => Some GENERAL
  | DynamicAnalysisComplete _ _ _ => None
  end.

Definition classify (customer_message : string) : option Intent :=
  match analyze_customer_situation customer_message with
  | Return r => intent_of r
  | _ => None
  end.

(** The category the function reports, when it reports one. *)
Definition categorize (customer_message : string) : option string :=
  match analyze_customer_situation customer_message with
  | Return (ActualProblemDetected t _) => Some t
  | _ => None
  end.

End Analyze.

(** ** The categorizer of [provide_generic_solution] *)

Module Generic.

Definition issue_type_of (details_lower : string) : string :=
  if any_in ["spill"; "damage"; "leak"; "mess"] details_lower then "spilled_food"
  else if any_in ["wrong"; "different"; "not what"; "mistake"] details_lower
  then "wrong_order"
  else if any_in ["late"; "delay"; "slow"; "waiting"] details_lower
  then "late_delivery"
  else if any_in ["cold"; "lukewarm"; "not hot"] details_lower then "cold_food"
  else if any_in ["missing"; "forgot"; "didn't get"] details_lower
  then "missing_items"
  else "general".


End Generic.

(** ** [orchestrate_resolution_plan] *)

Module Orchestrate.

(** The locals the scoring part assigns. *)
Record scoring : Type := mkScoring {
  severity_score : Z;
  issue_type : string;
  emotional_indicators : list string
}.

(** Severity classification: the first [if]/[elif]/[else]. *)
Definition classify_severity (details_lower : string) : scoring :=
  if any_in ["spilled"; "poisoned"; "allergic"; "sick"; "emergency"] details_lower
  then mkScoring 100 "critical_failure" []
  else if any_in ["wrong order"; "missing"; "damaged"; "terrible"; "awful";
                  "disgusted"] details_lower
  then mkScoring 75 "major_service_failure" []
  else if any_in ["cold"; "late"; "delayed"; "poor quality"; "disappointed"]
                 details_lower
  then mkScoring 50 "quality_issue" []
  else mkScoring 25 "minor_concern" [].

Definition anger_words : list string :=
  ["angry"; "furious"; "outraged"; "disgusted"].
Definition frustration_words : list string :=
  ["frustrated"; "annoyed"; "disappointed"].
Definition repeat_words : list string :=
  ["again"; "always"; "every time"; "repeatedly"].

(** [emotional_indicators.append(tag); severity_score += bonus] *)
Definition flag (tag : string) (bonus : Z) (st : scoring) : scoring :=
  mkScoring (severity_score st + bonus) (issue_type st)
            (emotional_indicators st ++ [tag]).

(** Detect emotional indicators: [if anger ... elif frustration ...]. *)
Definition detect_emotion (details_lower : string) (st : scoring) : scoring :=
  if any_in anger_words details_lower then flag "high_anger" 15 st
  else if any_in frustration_words details_lower then flag "frustration" 10 st
  else st.

(** Detect repeat customer signals. *)
Definition detect_repeat (details_lower : string) (st : scoring) : scoring :=
  if any_in repeat_words details_lower then flag "repeat_issue" 20 st else st.

Definition score (issue_details : string) : scoring :=
  let details_lower := lower issue_details in
  detect_repeat details_lower
    (detect_emotion details_lower (classify_severity details_lower)).

(** The plan is chosen from the final score alone. *)
Definition compensation_level (severity_score : Z) : string :=
  if (90 <=? severity_score)%Z then "premium_plus"
  else if (70 <=? severity_score)%Z then "premium"
  else if (45 <=? severity_score)%Z then "enhanced"
  else "basic".

Record plan : Type := mkPlan {
  plan_score : Z;
  plan_issue_type : string;
  plan_compensation_level : string;
  plan_emotional_indicators : list string
}.

Definition orchestrate_resolution_plan (issue_details : string) : plan :=
  let st := score issue_details in
  mkPlan (severity_score st) (issue_type st)
         (compensation_level (severity_score st)) (emotional_indicators st).

End Orchestrate.

(** ** [random]: an explicit generator state

    The state is the tape of raw draws still to come; an exhausted tape keeps
    answering 0.  Functions that draw are in the state monad [Random.M]. *)

Module Random.

Definition state : Type := list nat.

Definition M (A : Type) : Type := state -> A * state.

Definition ret {A : Type} (a : A) : M A := fun g => (a, g).

Definition bind {A B : Type} (m : M A) (k : A -> M B) : M B :=
  fun g => let (a, g') := m g in k a g'.

Definition randbelow (n : nat) : M nat :=
  fun g =>
    match g with
    | [] => (0%nat, [])
    | x :: g' => ((x mod n)%nat, g')
    end.

(** [random.choice(l)] on a non-empty list of integers. *)
Definition choice (l : list Z) : M Z :=
  bind (randbelow (List.length l)) (fun i => ret (nth i l 0%Z)).

(** [random.randint(a, b)] *)
Definition randint (a b : Z) : M Z :=
  bind (randbelow (Z.to_nat (b - a + 1)))
       (fun i => ret (a + Z.of_nat i)%Z).

(** The value a computation produces from a generator state. *)
Definition run {A : Type} (m : M A) (g : state) : A := fst (m g).

(** Two calls one after the other, the second from the state the first left. *)
Definition twice {A : Type} (m : M A) : M (A * A) :=
  bind m (fun a1 => bind m (fun a2 => ret (a1, a2))).

End Random.

Notation "x <- m ;;; k" := (Random.bind m (fun x => k))
  (at level 62, m at next level, right associativity).

(** ** The patterns of [re.search] used for the order value

    [\d] and [\s] are taken on ASCII.  The three alternatives need no
    backtracking: after a greedy run of digits (or of white space) the next
    character is not a digit (not white space), so a shorter run cannot make
    the rest of the alternative match. *)

Module Re.

Definition is_digit (c : ascii) : bool :=
  let n := nat_of_ascii c in (48 <=? n)%nat && (n <=? 57)%nat.

Definition is_space (c : ascii) : bool :=
  let n := nat_of_ascii c in
  ((9 <=? n)%nat && (n <=? 13)%nat) || ((28 <=? n)%nat && (n <=? 32)%nat).

(** A literal: the rest of [s] after the prefix [w]. *)
Fixpoint literal (w s : string) : option string :=
  match w, s with
  | EmptyString, _ => Some s
  | String a w', String b s' => if Ascii.eqb a b then literal w' s' else None
  | String _ _, EmptyString => None
  end.

(** [\s*], greedy: the rest of [s] after its leading white space. *)
Fixpoint spaces (s : string) : string :=
  match s with
  | String c s' => if is_space c then spaces s' else s
  | EmptyString => s
  end.

(** The greedy run of digits at the head of [s], and the rest. *)
Fixpoint digit_run (s : string) : string * string :=
  match s with
  | String c s' =>
      if is_digit c then
        let (d, r) := digit_run s' in (String c d, r)
      else (EmptyString, s)
  | EmptyString => (EmptyString, s)
  end.

(** [(\d+)]: the captured digits and the rest. *)
Definition digits1 (s : string) : option (string * string) :=
  match digit_run s with
  | (EmptyString, _) => None
  | (d, r) => Some (d, r)
  end.

Definition digit_value (c : ascii) : Z := Z.of_nat (nat_of_ascii c - 48).

(** [int(d)] for a string of digits. *)
Definition int_of_digits (d : string) : Z :=
  (fix go (acc : Z) (d : string) : Z :=
     match d with
     | EmptyString => acc
     | String c d' => go (10 * acc + digit_value c)%Z d'
     end) 0%Z d.

(** The rupee sign, U+20B9, in UTF-8. *)
Definition rupee_sign : string :=
  String (ascii_of_nat 226) (String (ascii_of_nat 130)
    (String (ascii_of_nat 185) EmptyString)).

(** [rupee(\d+)] at the head of [s]: the group. *)
Definition symbol_amount (s : string) : option string :=
  match literal rupee_sign s with
  | Some r => option_map fst (digits1 r)
  | None => None
  end.

(** [rs\s*(\d+)] at the head of [s]. *)
Definition rs_amount (s : string) : option string :=
  match literal "rs" s with
  | Some r => option_map fst (digits1 (spaces r))
  | None => None
  end.

(** [(\d+)\s*rupees] at the head of [s]. *)
Definition amount_rupees (s : string) : option string :=
  match digits1 s with
  | Some (d, r) =>
      match literal "rupees" (spaces r) with
      | Some _ => Some d
      | None => None
      end
  | None => None
  end.

(** [re.search(p, s)] for a pattern given by its match at the head of a
    string: the leftmost position where it matches. *)
Fixpoint search (p : string -> option string) (s : string) : option string :=
  match p s with
  | Some d => Some d
  | None =>
      match s with
      | EmptyString => None
      | String _ s' => search p s'
      end
  end.

(** [rupee(\d+)|rs\s*(\d+)|(\d+)\s*rupees]: the alternatives in order; the
    result is the one group that took part in the match. *)
Definition amount_pattern (s : string) : option string :=
  match symbol_amount s with
  | Some d => Some d
  | None =>
      match rs_amount s with
      | Some d => Some d
      | None => amount_rupees s
      end
  end.

(** Every character of [s] satisfies [f]. *)
Fixpoint all (f : ascii -> bool) (s : string) : bool :=
  match s with
  | EmptyString => true
  | String c s' => f c && all f s'
  end.

(** [s] begins with a character satisfying [f]. *)
Definition starts_with (f : ascii -> bool) (s : string) : bool :=
  match s with
  | EmptyString => false
  | String c _ => f c
  end.

End Re.

(** ** Python numbers *)

Module PyNum.

Open Scope Z_scope.

(** [int(n * p / 100)] and the like for integers [n], [p]: the quotient
    truncated towards zero.  Python divides in binary64; for [|n * p|] below
    [2^50] the truncated double is the truncated exact quotient. *)
Definition int_div (n d : Z) : Z := Z.quot n d.

(** [int(n * 0.4)] and [int(n * 0.5)] for an integer [n]: on the same range
    the truncated binary64 product is the truncated exact product. *)
Definition int_mul_tenths (n tenths : Z) : Z := Z.quot (n * tenths) 10.


(** [dict.get(key, default)] on a dict literal, as an association list. *)
Fixpoint get {V : Type} (d : list (string * V)) (key : string) (default : V) : V :=
  match d with
  | [] => default
  | (k, v) :: d' => if String.eqb k key then v else get d' key default
  end.

End PyNum.

(** ** The compensation tools *)

Module Tools.

Import PyNum.
Open Scope Z_scope.

(** *** [gather_compensation_details] *)

Record gathered : Type := mkGathered {
  g_order_value : Z;
  g_issue_severity : string
}.

(** The order value read from the text: [None] for Python's [None]. *)
Definition gather_extract (customer_query : string) : option Z :=
  if contains Re.rupee_sign customer_query
     || contains "rs" (lower customer_query)
     || contains "rupees" (lower customer_query)
  then option_map Re.int_of_digits
         (Re.search Re.amount_pattern (lower customer_query))
  else None.

(** [not order_value] *)
Definition falsy (order_value : option Z) : bool :=
  match order_value with
  | None => true
  | Some v => v =? 0
  end.

Definition gather_compensation_details (customer_query : string)
  : Random.M gathered :=
  let order_value := gather_extract customer_query in
  order_value <-
    (if falsy order_value
     then Random.choice [250; 350; 450; 550; 650; 750; 850; 950]
     else Random.ret (match order_value with Some v => v | None => 0 end)) ;;;
  let issue_severity :=
    if any_in ["completely wrong"; "terrible"; "disgusting"; "awful"; "horrible"]
              (lower customer_query) then "high"
    else if any_in ["slightly"; "minor"; "small"; "bit"] (lower customer_query)
    then "low"
    else "medium" in
  Random.ret (mkGathered order_value issue_severity).

(** *** [negotiate_fair_compensation] *)

Record negotiation : Type := mkNegotiation {
  order_value : Z;
  issue_type : string;
  base_percentage : Z;
  base_compensation : Z;
  delivery_cost : Z;
  goodwill_voucher : Z;
  tier_1_offer : Z;
  tier_2_offer : Z;
  tier_3_offer : Z;
  customer_satisfaction_score : Z
}.


Definition negotiate_extract (order_details : string) : Z :=
  if contains Re.rupee_sign order_details then
    match Re.search Re.symbol_amount order_details with
    | Some d => Re.int_of_digits d
    | None => 500
    end
  else 500.

Definition negotiate_issue (order_details : string) : string * Z :=
  let details_lower := lower order_details in
  if any_in ["wrong"; "incorrect"; "different"] details_lower
  then ("wrong_order", 30)
  else if any_in ["spilled"; "damaged"; "cold"; "soggy"] details_lower
  then ("quality_issue", 40)
  else if any_in ["late"; "delay"; "waiting"] details_lower
  then ("delivery_delay", 15)
  else if any_in ["missing"; "incomplete"] details_lower
  then ("missing_items", 35)
  else ("general", 25).

Definition negotiate_fair_compensation (order_details : string)
  : Random.M negotiation :=
  let order_value := negotiate_extract order_details in
  let '(issue_type, base_percentage) := negotiate_issue order_details in
  let base_compensation := int_div (order_value * base_percentage) 100 in
  delivery_cost <- Random.choice [45; 50; 55; 60] ;;;
  goodwill_voucher <- Random.choice [30; 40; 50] ;;;
  let tier_1_offer := base_compensation in
  let tier_2_offer :=
    Z.min (base_compensation + 30) (int_mul_tenths order_value 4) in
  let tier_3_offer :=
    Z.min (int_mul_tenths order_value 5) (base_compensation + 60) in
  customer_satisfaction_score <- Random.choice [75; 80; 85; 90] ;;;
  Random.ret
    (mkNegotiation order_value issue_type base_percentage base_compensation
       delivery_cost goodwill_voucher tier_1_offer tier_2_offer tier_3_offer
       customer_satisfaction_score).

(** *** [calculate_dynamic_refund_amount] *)

Definition compensation_matrix : list (string * (Z * Z)) :=
  [ ("wrong_order", (25, 40));
    ("quality_issue", (30, 50));
    ("delivery_delay", (10, 25));
    ("missing_items", (35, 50));
    ("spilled_food", (35, 50));
    ("cold_food", (20, 35));
    ("damaged_packaging", (15, 30)) ].

Record refund : Type := mkRefund {
  percentage : Z;
  tier : string;
  refund_amount : Z;
  goodwill_credit : Z;
  r_delivery_cost : Z;
  total_grab_cost : Z;
  net_business_impact : Z;
  pre_approved : bool;
  resolution_confidence : Z
}.


(** The percentage and its tier: [comp_range] is [(min, max)]. *)
Definition refund_percentage (issue_type customer_expectation : string)
  : Z * string :=
  let '(cmin, cmax) := get compensation_matrix issue_type (40, 60) in
  let expectation := lower customer_expectation in
  if contains "full refund" expectation || contains "complete" expectation
  then (Z.min cmax 50, "maximum (50% cap)")
  else if contains "partial" expectation || contains "some" expectation
  then (cmin, "minimal")
  else ((cmin + Z.min cmax 50) / 2, "standard").

Definition calculate_dynamic_refund_amount
  (order_value : Z) (issue_type customer_expectation : string)
  : Random.M refund :=
  let '(percentage, tier) := refund_percentage issue_type customer_expectation in
  let refund_amount := int_div (order_value * percentage) 100 in
  goodwill_credit <- Random.choice [50; 75; 100] ;;;
  delivery_cost <- Random.choice [45; 50; 55] ;;;
  platform <- Random.choice [25; 30; 35] ;;;
  let total_grab_cost := delivery_cost + platform in
  let net_business_impact :=
    refund_amount + goodwill_credit - (order_value - total_grab_cost) in
  confidence <- Random.choice [85; 90; 95] ;;;
  Random.ret
    (mkRefund percentage tier refund_amount goodwill_credit delivery_cost
       total_grab_cost net_business_impact (2 * refund_amount <=? order_value)
       confidence).

(** *** [offer_goodwill_voucher] *)

Record voucher : Type := mkVoucher {
  v_order_value : Z;
  voucher_percentage : Z;
  escalation_percentage : Z;
  initial_voucher : Z;
  max_voucher : Z;
  voucher_code : Z
}.

Definition offer_goodwill_voucher
  (issue_type customer_satisfaction_level : string) : Random.M voucher :=
  order_value <- Random.choice [200; 300; 400; 500; 600; 700; 800] ;;;
  let level := lower customer_satisfaction_level in
  let '(voucher_percentage, escalation_percentage) :=
    if mem level ["extremely dissatisfied"; "very upset"; "angry"] then (70, 90)
    else if mem level ["dissatisfied"; "unhappy"] then (50, 70)
    else (30, 50) in
  let initial_voucher := int_div (order_value * voucher_percentage) 100 in
  let max_voucher := int_div (order_value * escalation_percentage) 100 in
  code <- Random.randint 1000 9999 ;;;
  Random.ret
    (mkVoucher order_value voucher_percentage escalation_percentage
       initial_voucher max_voucher code).

(** *** [escalate_compensation_dissatisfaction] *)

Record escalation : Type := mkEscalation {
  escalation_id : Z;
  escalation_reason : string;
  max_compensation_offered : string;
  customer_response : string
}.

Definition escalation_reason_of (complaint_lower : string) : string :=
  if any_in ["not enough"; "more money"; "full refund"; "complete refund"]
            complaint_lower
  then "Requesting compensation above 50% policy limit"
  else if any_in ["unfair"; "ridiculous"; "terrible"; "awful"] complaint_lower
  then "Customer expressing strong dissatisfaction with policy"
  else if any_in ["manager"; "supervisor"; "human"; "person"] complaint_lower
  then "Customer specifically requesting human intervention"
  else if any_in ["cancel"; "never again"; "complaint"; "report"] complaint_lower
  then "Customer threatening to escalate beyond Grab"
  else "General dissatisfaction".

Definition escalate_compensation_dissatisfaction
  (customer_complaint attempted_compensation : string)
  : Random.M escalation :=
  id <- Random.randint 10000 99999 ;;;
  Random.ret
    (mkEscalation id (escalation_reason_of (lower customer_complaint))
       attempted_compensation customer_complaint).

End Tools.

(** ** Binary64 arithmetic

    [calculate_dynamic_compensation] multiplies by the literals 0.3 to 1.0,
    where rounding shows at small order values; its products are computed
    on IEEE 754 doubles. *)

Module PyFloat.

Open Scope Z_scope.

Definition float : Type := spec_float.

Definition prec : Z := 53.
Definition emax : Z := 1024.

(** [float(n)] for an integer [n]. *)
Definition of_int (n : Z) : float := binary_normalize prec emax n 0 false.

Definition mul : float -> float -> float := SFmul prec emax.
Definition div : float -> float -> float := SFdiv prec emax.

(** The literal written [n/d] in decimal (0.6 is [decimal 6 10]): the double
    nearest to the quotient. *)
Definition decimal (n d : Z) : float := div (of_int n) (of_int d).

(** [int(x)]: truncation towards zero; [None] where Python raises (infinity,
    not a number). *)
Definition to_int (x : float) : option Z :=
  match x with
  | S754_zero _ => Some 0
  | S754_finite s m e =>
      let a := if 0 <=? e then Zpos m * 2 ^ e else Zpos m / 2 ^ (- e) in
      Some (if s then - a else a)
  | S754_infinity _ | S754_nan => None
  end.

End PyFloat.

Module Dynamic.

Import PyNum.
Open Scope Z_scope.

Record entry : Type := mkEntry {
  base : PyFloat.float;
  bonus : Z;
  type : string
}.

Definition compensation_matrix : list (string * entry) :=
  [ ("spilled", mkEntry (PyFloat.decimal 10 10) 50 "full_refund_plus");
    ("damaged", mkEntry (PyFloat.decimal 10 10) 30 "full_refund_plus");
    ("wrong_order", mkEntry (PyFloat.decimal 10 10) 20 "full_refund");
    ("missing_items", mkEntry (PyFloat.decimal 6 10) 15 "partial_refund");
    ("cold_food", mkEntry (PyFloat.decimal 4 10) 25 "partial_refund");
    ("late_delivery", mkEntry (PyFloat.decimal 3 10) 10 "delivery_refund");
    ("poor_quality", mkEntry (PyFloat.decimal 7 10) 20 "partial_refund") ].

Definition estimated_orders : list Z :=
  [180; 250; 320; 450; 580; 720; 890; 1200].

Record compensation : Type := mkCompensation {
  order_value : Z;
  refund_amount : option Z;
  bonus_voucher : Z;
  compensation_type : string
}.

(** [refund_amount + bonus_voucher] *)
Definition total_compensation (c : compensation) : option Z :=
  option_map (fun r => r + bonus_voucher c) (refund_amount c).

(** [order_value] is [None] or an integer amount. *)
Definition calculate_dynamic_compensation
  (issue_type : string) (order_value : option Z) : Random.M compensation :=
  order_value <-
    (if Tools.falsy order_value then Random.choice estimated_orders
     else Random.ret (match order_value with Some v => v | None => 0 end)) ;;;
  let comp :=
    get compensation_matrix issue_type
        (mkEntry (PyFloat.decimal 5 10) 15 "standard") in
  let refund_amount :=
    PyFloat.to_int (PyFloat.mul (PyFloat.of_int order_value) (base comp)) in
  Random.ret
    (mkCompensation order_value refund_amount (bonus comp) (type comp)).

End Dynamic.

(** ** The categorizer and the extraction rule as specified *)

(** The categorizer in the specification's words: an ordered list of
    (category, keyword set) pairs, evaluated in order, first match wins. *)
Module Priority.



End Priority.

(** The extraction rule in the specification's words: a currency symbol, or
    "rs" or "rupees", followed by digits. *)
Module MarkedNumeral.




End MarkedNumeral.

(** ** Agreement of the integer quotients with binary64

    The check that, at an order value [n], the amounts computed on doubles are
    the integer quotients the tools above use, for the percentages the policy
    tables hold. *)

Module Agreement.

Open Scope Z_scope.

Definition policy_percentages : list Z :=
  [10; 15; 17; 20; 22; 25; 27; 30; 32; 35; 40; 42; 45; 50; 70; 90].

Definition equals (x : option Z) (z : Z) : bool :=
  match x with
  | Some y => y =? z
  | None => false
  end.

Definition agree_at (n : Z) : bool :=
  forallb
    (fun p =>
       equals (PyFloat.to_int
             (PyFloat.div (PyFloat.of_int (n * p)) (PyFloat.of_int 100)))
          (PyNum.int_div (n * p) 100))
    policy_percentages
  && equals (PyFloat.to_int (PyFloat.mul (PyFloat.of_int n) (PyFloat.decimal 4 10)))
        (PyNum.int_mul_tenths n 4)
  && equals (PyFloat.to_int (PyFloat.mul (PyFloat.of_int n) (PyFloat.decimal 5 10)))
        (PyNum.int_mul_tenths n 5).

End Agreement.

(** ** More of Python's [str] *)

Module PyText.

(** [s.split(sep, maxsplit)] for a one-character separator: at most
    [maxsplit] cuts, from the left. *)
Fixpoint split_max (sep : ascii) (maxsplit : nat) (s : string) : list string :=
  match s with
  | EmptyString => [EmptyString]
  | String c s' =>
      if Ascii.eqb c sep then
        match maxsplit with
        | O => [s]
        | S n => EmptyString :: split_max sep n s'
        end
      else
        match split_max sep maxsplit s' with
        | [] => [String c EmptyString]
        | p :: ps => String c p :: ps
        end
  end.

(** [s.split(sep)]: a string has no more separators than characters. *)
Definition split (sep : ascii) (s : string) : list string :=
  split_max sep (String.length s) s.

(** [sep.join(parts)] *)
Fixpoint join (sep : string) (parts : list string) : string :=
  match parts with
  | [] => EmptyString
  | [p] => p
  | p :: ps => p ++ sep ++ join sep ps
  end.

(** The number of occurrences of a character. *)
Fixpoint count (c : ascii) (s : string) : nat :=
  match s with
  | EmptyString => 0
  | String a s' => (if Ascii.eqb a c then 1 else 0) + count c s'
  end.

Definition comma : ascii := ascii_of_nat 44.

(** [a, b = parts] and [a, b, c = parts]: [None] where Python raises
    ValueError for the wrong number of values. *)
Definition unpack2 (parts : list string) : option (string * string) :=
  match parts with
  | [a; b] => Some (a, b)
  | _ => None
  end.

Definition unpack3 (parts : list string) : option (string * string * string) :=
  match parts with
  | [a; b; c] => Some (a, b, c)
  | _ => None
  end.

(** [s.upper()], on the ASCII letters. *)
Definition upper_char (c : ascii) : ascii :=
  let n := nat_of_ascii c in
  if (97 <=? n)%nat && (n <=? 122)%nat then ascii_of_nat (n - 32) else c.

Fixpoint upper (s : string) : string :=
  match s with
  | EmptyString => EmptyString
  | String c s' => String (upper_char c) (upper s')
  end.

(** A byte that continues a UTF-8 sequence (binary 10xxxxxx). *)
Definition is_continuation (c : ascii) : bool :=
  let n := nat_of_ascii c in (128 <=? n)%nat && (n <=? 191)%nat.

(** [len(s)]: the number of code points. *)
Fixpoint len (s : string) : nat :=
  match s with
  | EmptyString => 0
  | String c s' => (if is_continuation c then 0 else 1) + len s'
  end.

(** [s[:n]]: the first [n] code points, each with its continuation bytes. *)
Fixpoint slice_to (n : nat) (s : string) : string :=
  match s with
  | EmptyString => EmptyString
  | String c s' =>
      if is_continuation c then String c (slice_to n s')
      else
        match n with
        | O => EmptyString
        | S n' => String c (slice_to n' s')
        end
  end.

(** [len(s.split())]: the number of maximal runs of characters that are not
    white space. *)
Fixpoint words_from (in_word : bool) (s : string) : nat :=
  match s with
  | EmptyString => 0
  | String c s' =>
      if Re.is_space c then words_from false s'
      else (if in_word then 0 else 1) + words_from true s'
  end.

Definition word_count (s : string) : nat := words_from false s.

(** [s.replace(old, new)] for a non-empty [old]: every occurrence, from the
    left, without overlap.  [skip] counts the characters of an occurrence
    still to pass over. *)
Fixpoint replace_from (old new : string) (skip : nat) (s : string) : string :=
  match s with
  | EmptyString => EmptyString
  | String c s' =>
      match skip with
      | S k => replace_from old new k s'
      | O =>
          if prefix old s
          then new ++ replace_from old new (String.length old - 1) s'
          else String c (replace_from old new 0 s')
      end
  end.

Definition replace (old new s : string) : string := replace_from old new 0 s.

(** Two texts agree when one begins with the other. *)
Definition agree (w x : string) : bool := prefix w x || prefix x w.

(** No occurrence of [w] can begin inside [a], whatever follows [a]. *)
Fixpoint no_start (w a : string) : bool :=
  match a with
  | EmptyString => true
  | String _ a' => negb (agree w a) && no_start w a'
  end.

End PyText.

(** [random.choice] on a non-empty list of any type. *)
Module Pick.

Definition choice {A : Type} (default : A) (l : list A) : Random.M A :=
  Random.bind (Random.randbelow (List.length l))
              (fun i => Random.ret (nth i l default)).

End Pick.

(** ** The tools that take comma-separated fields *)

Module Fields.

Import PyText.

(** What a tool answers: the values of its template, or the text of its
    [except] branch. *)
Inductive answer (A : Type) : Type :=
| Answered (a : A)
| Refused (message : string).

Arguments Answered {A} a.
Arguments Refused {A} message.

(** [a, b = s.split(',', 1) if ',' in s else (s, default)] *)
Definition id_and (default : string) (s : string) : answer (string * string) :=
  if contains "," s then
    match unpack2 (split_max comma 1 s) with
    | Some p => Answered p
    | None => Refused "ValueError"
    end
  else Answered (s, default).

(** [exonerate_driver], as the module binds the name last (line 905). *)
Definition exonerate_driver (driver_details : string)
  : answer (string * string) :=
  id_and "Evidence supports innocence" driver_details.

Definition driver_responses : list string :=
  [ "Driver responded: 'Customer not at delivery address, trying alternative contact'";
    "Driver confirmed: 'Order delivered to specified location, customer received items'";
    "Driver explained: 'Traffic jam caused delay, sent customer notification'";
    "Driver reported: 'Merchant had to remake order due to quality issue'" ].

(** [contact_driver]: the fields read, and the response drawn. *)
Definition contact_driver (driver_message : string)
  : Random.M (answer (string * string) * string) :=
  let fields := id_and "Status update" driver_message in
  response <- Pick.choice "" driver_responses ;;;
  Random.ret (fields, response).

Definition merchant_responses : list string :=
  [ "Merchant confirmed: 'Order prepared correctly, packaged according to standards'";
    "Merchant admitted: 'Kitchen error occurred, willing to remake order at no charge'";
    "Merchant explained: 'Delay due to ingredient shortage, offered substitute items'";
    "Merchant investigating: 'Reviewing kitchen procedures, will provide feedback within 2 hours'" ].

Definition contact_merchant (merchant_message : string)
  : Random.M (answer (string * string) * string) :=
  let fields := id_and "Order inquiry" merchant_message in
  response <- Pick.choice "" merchant_responses ;;;
  Random.ret (fields, response).

Definition verify_customer_identity (verification_request : string)
  : answer (string * string) :=
  id_and "standard" verification_request.

(** [try: a, b, c = s.split(',', 2) ... except: return error] *)
Definition three_fields (error : string) (s : string)
  : answer (string * string * string) :=
  match unpack3 (split_max comma 2 s) with
  | Some t => Answered t
  | None => Refused error
  end.

(** [offer_compensation_voucher]: [split(',')] without a bound. *)
Definition offer_compensation_voucher (voucher_details : string)
  : answer (string * string * string) :=
  match unpack3 (split comma voucher_details) with
  | Some t => Answered t
  | None =>
      Refused "Error: Please provide voucher details as customer_id,amount,voucher_type"
  end.

(** [issue_instant_refund], as the module binds the name last (line 896). *)
Definition issue_instant_refund (refund_details : string)
  : answer (string * string * string) :=
  three_fields "Error: Please provide refund details as customer_id,amount,reason"
    refund_details.

(** [log_merchant_packaging_feedback], as bound last (line 911). *)
Definition log_merchant_packaging_feedback (feedback_details : string)
  : answer (string * string) :=
  match unpack2 (split_max comma 1 feedback_details) with
  | Some p => Answered p
  | None => Refused "Error: Please provide feedback as merchant_id,feedback_details"
  end.

(** [log_incident_report]: the fields and the report number, drawn only
    when the fields unpack. *)
Definition log_incident_report (incident_details : string)
  : Random.M (answer (string * string * string * Z)) :=
  match unpack3 (split_max comma 2 incident_details) with
  | Some t =>
      number <- Random.randint 10000 99999 ;;;
      Random.ret (Answered (t, number))
  | None =>
      Random.ret
        (Refused "Error: Please provide incident details as incident_type,details,involved_parties")
  end.

Record escalated : Type := mkEscalated {
  priority : string;
  reason : string;
  response_time : string
}.

(** [escalate_to_human] *)
Definition escalate_to_human (escalation_request : string) : answer escalated :=
  match unpack3 (split_max comma 2 escalation_request) with
  | Some (reason, urgency, summary) =>
      Answered
        (mkEscalated urgency reason
           (if String.eqb urgency "high" then "30 minutes"
            else if String.eqb urgency "medium" then "2 hours"
            else "24 hours"))
  | None => Refused "Case escalated to human agent team for specialized handling."
  end.

End Fields.

(** ** Traffic, rerouting, weather *)

Module Delivery.

Open Scope Z_scope.

Record traffic : Type := mkTraffic {
  traffic_status : string;
  route_info : string;
  recommendation : string
}.

(** The five f-strings of [check_traffic], built before one is drawn. *)
Definition traffic_conditions (location : string) : list string :=
  [ "Traffic Status for " ++ location
      ++ ": Light traffic, normal flow. Expected delivery time on schedule.";
    "Traffic Status for " ++ location
      ++ ": Moderate congestion detected. +5-8 minutes delay expected.";
    "Traffic Status for " ++ location
      ++ ": Heavy traffic due to construction. +15-20 minutes delay likely.";
    "Traffic Status for " ++ location
      ++ ": Severe congestion - accident reported. +25-30 minutes delay. Rerouting recommended.";
    "Traffic Status for " ++ location
      ++ ": Road closure in effect. Alternative route required. +10-15 minutes delay." ].

(** [check_traffic]: the recommendation is computed from
    [traffic_conditions[-1]]. *)
Definition check_traffic (location route : string) : Random.M traffic :=
  let conditions := traffic_conditions location in
  let route_info :=
    match route with
    | EmptyString => EmptyString
    | _ => " Route: " ++ route
    end in
  status <- Pick.choice "" conditions ;;;
  let recommendation :=
    if contains "Heavy" (last conditions "")
       || contains "Severe" (last conditions "")
    then "Consider alternative routes"
    else "Current route optimal" in
  Random.ret (mkTraffic status route_info recommendation).

Record rerouting (D : Type) : Type := mkRerouting {
  original_eta : Z;
  optimized_eta : Z;
  time_saved : Z;
  distance_saved : D
}.

Arguments mkRerouting {D} _ _ _ _.
Arguments original_eta {D} _.
Arguments optimized_eta {D} _.
Arguments time_saved {D} _.
Arguments distance_saved {D} _.

(** [reroute_driver].  [round(random.uniform(0.5, 2.3), 1)] is a draw of the
    generator after the two [randint]; it is taken as the computation
    [distance]. *)
Definition reroute_driver {D : Type} (distance : Random.M D)
  (driver_id new_route : string) : Random.M (rerouting D) :=
  original_eta <- Random.randint 12 25 ;;;
  cut <- Random.randint 3 8 ;;;
  let optimized_eta := Z.max 8 (original_eta - cut) in
  distance_saved <- distance ;;;
  Random.ret
    (mkRerouting original_eta optimized_eta (original_eta - optimized_eta)
       distance_saved).

Record weather : Type := mkWeather {
  condition : string;
  impact : string;
  description : string;
  delivery_impact : string;
  safety_note : string
}.

Definition weather_scenarios : list weather :=
  [ mkWeather "Heavy Rainfall" "Severe delivery delays expected"
      "Intense rainfall with 25mm/hour precipitation. Roads are waterlogged in several areas."
      "30-45 minute delays typical" "Drivers taking extra caution for safety";
    mkWeather "Thunderstorm Warning" "Major service disruptions"
      "Active thunderstorm with lightning. Many delivery partners temporarily sheltering."
      "45-60 minute delays possible"
      "Safety protocols require drivers to seek shelter during lightning";
    mkWeather "Light Rain" "Minor delivery delays"
      "Light intermittent showers affecting traffic flow."
      "10-15 minute delays" "Slower speeds for safety";
    mkWeather "Clear Weather" "Normal delivery operations"
      "Clear skies with good visibility."
      "No weather-related delays" "Optimal delivery conditions";
    mkWeather "Heavy Traffic + Rain" "Combined delays"
      "Rain causing significant traffic congestion throughout the city."
      "20-35 minute delays"
      "Delivery partners navigating carefully through congested areas" ].

Definition no_weather : weather := mkWeather "" "" "" "" "".

(** [check_weather_conditions]; [current_hour] is [datetime.now().hour]. *)
Definition check_weather_conditions (current_hour : Z) (location_time : string)
  : Random.M (string * weather) :=
  w <- (if (17 <=? current_hour) && (current_hour <=? 20)
        then Pick.choice no_weather (firstn 3 weather_scenarios)
        else Pick.choice no_weather weather_scenarios) ;;;
  Random.ret (PyText.upper location_time, w).

End Delivery.

(** ** Edge cases and natural responses *)

Module Edge.

Import PyText.

(** The values a dict of [handle_edge_cases] holds. *)
Inductive pyval : Type :=
| PStr (s : string)
| PBool (b : bool)
| PList (l : list string).

Definition dict : Type := list (string * pyval).

(** [d[key]]: [None] where Python raises KeyError. *)
Fixpoint item (d : dict) (key : string) : option pyval :=
  match d with
  | [] => None
  | (k, v) :: d' => if String.eqb k key then Some v else item d' key
  end.

(** Truth value of a dict value, as [if] tests it. *)
Definition truthy (v : pyval) : bool :=
  match v with
  | PStr s => negb (String.eqb s "")
  | PBool b => b
  | PList l => match l with [] => false | _ => true end
  end.

Definition humor_indicators : list string :=
  ["lol"; "haha"; "😂"; "😅"; "funny"; "joke"; "kidding"].

Definition slang_map : list (string * string) :=
  [ ("food is trash", "poor quality food");
    ("driver is sus", "suspicious driver behavior");
    ("this is cap", "this seems wrong");
    ("no cap", "honestly");
    ("bet", "okay/sure");
    ("fire food", "excellent food");
    ("mid", "mediocre/average");
    ("lowkey", "somewhat/kind of");
    ("highkey", "very/really");
    ("slaps", "really good");
    ("bussin", "really good/delicious");
    ("periodt", "end of discussion") ].

Definition vague_indicators : list string :=
  ["bad"; "terrible"; "awful"; "horrible"; "not good"; "disappointing"].

Definition question_words : list string :=
  ["what"; "when"; "where"; "how"; "why"].

(** The [for slang, meaning in slang_map.items()] loop: the translated
    message and the slang found, in the order of the map. *)
Definition translate (message_lower : string) : string * list string :=
  fold_left
    (fun (st : string * list string) (entry : string * string) =>
       let '(translated_message, slang_found) := st in
       let '(slang, meaning) := entry in
       if contains slang message_lower
       then (replace slang meaning translated_message, (slang_found ++ [slang])%list)
       else st)
    slang_map (message_lower, []).

Definition handle_edge_cases (message : string) : dict :=
  let message_lower := lower message in
  if any_in humor_indicators message_lower then
    [ ("type", PStr "humor");
      ("response_style", PStr "playful");
      ("suggested_tone", PStr "Match their energy while being helpful") ]
  else
    let '(translated_message, slang_found) := translate message_lower in
    let is_vague :=
      any_in vague_indicators message_lower
      && (word_count message <? 8)%nat in
    let has_questions := any_in question_words message_lower in
    let is_incomplete := (word_count message <? 5)%nat || has_questions in
    [ ("original_message", PStr message);
      ("translated_message", PStr translated_message);
      ("slang_detected", PList slang_found);
      ("is_vague", PBool is_vague);
      ("is_incomplete", PBool is_incomplete);
      ("has_humor",
       PBool (0 <? List.length
                     (filter (fun h => contains h message_lower)
                             humor_indicators))%nat);
      ("response_style",
       PStr (match slang_found with [] => "professional" | _ => "casual" end)) ].

Definition casual_intros : list (string * string) :=
  [ ("spilled", "Yooo, that's actually terrible! Food everywhere is NOT the vibe 😭");
    ("wrong_order", "Bruh, getting the wrong order hits different when you're hungry! That's on us fr");
    ("late_delivery", "Okay that wait time is lowkey unacceptable, my bad on that one!");
    ("cold_food", "Cold food is just... nah. That's not it, chief. Let me fix this for real");
    ("poor_quality", "If the food was mid/trash, that's totally our fault - we gotta make this right!") ].

Definition empathetic_responses : list string :=
  [ "I can tell you're frustrated, and that's completely valid! Even though I don't have all the details, I want to help you right away.";
    "Something clearly went wrong with your experience, and I'm sorry about that! Let me see what I can do to make you feel better.";
    "I hear the disappointment in your message, and I want to turn this around for you immediately!" ].

Definition playful_responses : list (string * string) :=
  [ ("spilled", "Haha, okay but seriously - spilled food is like a tragedy with a side of mess! Let me fix this disaster 😄");
    ("wrong_order", "LOL I wish mix-ups were actually funny, but when you're hungry it's just cruel! Let me sort this out");
    ("late_delivery", "Right? The waiting game is NOT fun when food is involved! Time to make this worth the wait") ].

Definition professional_response : string :=
  "I understand your concern and I'm here to help resolve this for you right away.".

(** What the function gives: a text, or the KeyError of a missing key. *)
Inductive outcome : Type :=
| Text (s : string)
| KeyError (key : string).

(** [generate_natural_response] *)
Definition generate_natural_response (issue_type : string)
  (edge_case_info : dict) : Random.M outcome :=
  match item edge_case_info "response_style" with
  | None => Random.ret (KeyError "response_style")
  | Some style =>
      if match style with PStr s => String.eqb s "casual" | _ => false end
      then Random.ret
             (Text (PyNum.get casual_intros issue_type
                      "My bad, let me make this right for you!"))
      else
        match item edge_case_info "is_vague" with
        | None => Random.ret (KeyError "is_vague")
        | Some vague =>
            if truthy vague then
              r <- Pick.choice "" empathetic_responses ;;;
              Random.ret (Text r)
            else
              match item edge_case_info "has_humor" with
              | None => Random.ret (KeyError "has_humor")
              | Some humor =>
                  if truthy humor
                  then Random.ret
                         (Text (PyNum.get playful_responses issue_type
                                  "I appreciate you keeping it light! Let me make sure this ends on a high note 😊"))
                  else Random.ret (Text professional_response)
              end
        end
  end.

End Edge.

(** ** Evidence, feedback, policy texts *)

Module Support.

Import PyText.
Open Scope Z_scope.

(** [collect_evidence]: the query after the placeholder test, and whether
    the analysis is complete. *)
Definition effective_query (query : string) : string :=
  if String.eqb query "" || mem (lower query) ["null"; "none"; ""]
  then "general complaint" else query.

Inductive evidence : Type :=
| ComplaintAnalysisComplete (issue : string)
| InformationGathering.

Definition collect_evidence (query : string) : evidence :=
  let query := effective_query query in
  let has_order_info :=
    any_in ["order"; "paid"; "rupees"; "rs"; "$"; "restaurant"; "kitchen"]
           (lower query) in
  let has_issue_info :=
    any_in ["wrong"; "late"; "delay"; "cold"; "missing"; "quality"; "spilled"]
           (lower query) in
  if has_order_info && has_issue_info
  then ComplaintAnalysisComplete query
  else InformationGathering.




(** [request_visual_evidence]: the evidence type asked for. *)
Definition request_visual_evidence (issue_description : string) : string :=
  let issue_lower := lower issue_description in
  if any_in ["spill"; "damage"; "mess"; "leak"] issue_lower
  then "spilled or damaged food"
  else if any_in ["wrong"; "different"; "mistake"] issue_lower
  then "wrong order items"
  else if any_in ["packaging"; "broken"; "container"] issue_lower
  then "packaging condition"
  else if any_in ["quality"; "bad"; "terrible"; "awful"] issue_lower
  then "food quality issue"
  else "order issue".

Record feedback : Type := mkFeedback {
  feedback_id : Z;
  category : string;
  evidence_attached : bool;
  summary : string
}.

Definition feedback_category (details_lower : string) : string :=
  if any_in ["spill"; "damage"; "mess"] details_lower then "Delivery Handling"
  else if any_in ["wrong"; "different"; "mistake"] details_lower
  then "Order Accuracy"
  else if any_in ["packaging"; "container"] details_lower
  then "Packaging Quality"
  else if any_in ["quality"; "food"; "taste"] details_lower then "Food Quality"
  else if any_in ["late"; "delay"; "time"] details_lower
  then "Delivery Timeliness"
  else "General".

(** [log_customer_feedback] *)
Definition log_customer_feedback (feedback_details evidence_provided : string)
  : Random.M feedback :=
  number <- Random.randint 10000 99999 ;;;
  Random.ret
    (mkFeedback number (feedback_category (lower feedback_details))
       (negb (String.eqb evidence_provided "none"))
       (slice_to 100 feedback_details)).

Record policy : Type := mkPolicy {
  coverage : string;
  reasoning : string;
  typical_range : string
}.

Definition policies : list (string * policy) :=
  [ ("wrong_order",
     mkPolicy "45-60% of order value"
       "Covers unusable items while considering preparation and delivery costs already invested"
       "₹200-400 for average orders");
    ("quality_issue",
     mkPolicy "50-70% of affected items"
       "Higher coverage for quality failures as this impacts trust and health"
       "₹150-350 depending on severity");
    ("delivery_delay",
     mkPolicy "₹50-150 credits"
       "Food still delivered and usable, compensation for time inconvenience"
       "₹75-125 for delays over 30 minutes");
    ("missing_items",
     mkPolicy "60-80% of missing item value"
       "Full item replacement cost plus inconvenience, as item not received"
       "₹100-300 based on missing items") ].

(** [policies["wrong_order"]] *)
Definition wrong_order_policy : policy :=
  PyNum.get policies "wrong_order" (mkPolicy "" "" "").

(** [explain_business_compensation_policy]: the heading and the policy. *)
Definition explain_business_compensation_policy (issue_type : string)
  : string * policy :=
  (upper (replace "_" " " issue_type),
   PyNum.get policies issue_type wrong_order_policy).

End Support.

(** * Properties *)

(** ** Strings *)

Section StringFacts.

Lemma prefix_iff (w s : string) :
  prefix w s = true <-> exists b, s = w ++ b.
Proof.
  revert s; induction w as [|a w IH]; intros s.
  - destruct s; simpl; split; eauto.
  - destruct s as [|c s]; simpl.
    + split; [discriminate | intros [b Hb]; discriminate].
    + destruct (ascii_dec a c) as [->|Hne].
      * rewrite IH. split; intros [b Hb]; exists b; congruence.
      * split; [discriminate | intros [b Hb]; congruence].
Qed.

Lemma contains_iff (w s : string) :
  contains w s = true <-> Substring w s.
Proof.
  unfold Substring. induction s as [|c s IH].
  - cbn [contains]. rewrite orb_false_r, prefix_iff. split.
    + intros [b Hb]. exists "", b. exact Hb.
    + intros (a & b & H). destruct a; [exists b; exact H | discriminate].
  - cbn [contains]. rewrite orb_true_iff, prefix_iff, IH. split.
    + intros [[b Hb] | (a & b & H)].
      * exists "", b. exact Hb.
      * exists (String c a), b. simpl. now rewrite H.
    + intros (a & b & H). destruct a as [|c' a].
      * left. exists b. exact H.
      * right. exists a, b. simpl in H. congruence.
Qed.

Lemma any_in_iff (ws : list string) (s : string) :
  any_in ws s = true <-> AnyIn ws s.
Proof.
  unfold any_in, AnyIn. rewrite existsb_exists.
  split; intros (w & Hin & H); exists w; split; trivial;
    now apply contains_iff.
Qed.

Lemma any_in_false_iff (ws : list string) (s : string) :
  any_in ws s = false <-> ~ AnyIn ws s.
Proof.
  rewrite <- any_in_iff. destruct (any_in ws s); split; congruence.
Qed.

Lemma append_assoc (a b c : string) : (a ++ b) ++ c = a ++ b ++ c.
Proof. induction a; simpl; congruence. Qed.

(** A word that occurs brings its own prefixes with it. *)
Lemma Substring_prefix (w x s : string) :
  Substring (w ++ x) s -> Substring w s.
Proof.
  intros (a & b & ->). exists a, (x ++ b). now rewrite append_assoc.
Qed.

Lemma AnyIn_intro (w : string) (ws : list string) (s : string) :
  In w ws -> Substring w s -> AnyIn ws s.
Proof. intros; exists w; auto. Qed.

End StringFacts.

(** ** The intent classifier *)

Section IntentFacts.

Import Analyze.

(** The [if]/[elif]/[else] statement, by the two keyword tests. *)
Lemma intent_branches_eq (m : string) :
  intent_branches m =
    match any_in tracking_keywords (lower m),
          any_in problem_keywords (lower m) with
    | _, true =>
        Return (ActualProblemDetected (issue_type_of (lower m))
                  (any_in evidence_needed_cases (lower m)))
    | true, false => Return TrackingRequestDetected
    | false, false => Return (GeneralInquiryDetected m)
    end.
Proof.
  unfold intent_branches; cbv zeta.
  destruct (any_in tracking_keywords (lower m)),
           (any_in problem_keywords (lower m)); reflexivity.
Qed.

Lemma classify_eq (m : string) :
  classify m =
    match any_in tracking_keywords (lower m),
          any_in problem_keywords (lower m) with
    | _, true => Some PROBLEM
    | true, false => Some TRACKING
    | false, false => Some GENERAL
    end.
Proof.
  unfold classify, analyze_customer_situation.
  rewrite intent_branches_eq.
  destruct (any_in tracking_keywords (lower m)),
           (any_in problem_keywords (lower m)); reflexivity.
Qed.

Lemma categorize_eq (m : string) :
  categorize m =
    if any_in problem_keywords (lower m)
    then Some (issue_type_of (lower m)) else None.
Proof.
  unfold categorize, analyze_customer_situation.
  rewrite intent_branches_eq.
  destruct (any_in tracking_keywords (lower m)),
           (any_in problem_keywords (lower m)); reflexivity.
Qed.

End IntentFacts.

(** C4: the classifier answers TRACKING exactly for a tracking keyword and no
    problem keyword, PROBLEM exactly for a problem keyword, GENERAL exactly
    when neither list has a word in the lowercased message; a message with a
    word of each list, such as "where" and "spilled", is a PROBLEM. *)
Theorem intent_classifier_precedence (m : string) :
  let s := lower m in
  (Analyze.classify m = Some Analyze.TRACKING <->
     AnyIn Analyze.tracking_keywords s /\ ~ AnyIn Analyze.problem_keywords s) /\
  (Analyze.classify m = Some Analyze.PROBLEM <->
     AnyIn Analyze.problem_keywords s) /\
  (Analyze.classify m = Some Analyze.GENERAL <->
     ~ AnyIn Analyze.tracking_keywords s /\ ~ AnyIn Analyze.problem_keywords s) /\
  (AnyIn Analyze.tracking_keywords s -> AnyIn Analyze.problem_keywords s ->
     Analyze.classify m = Some Analyze.PROBLEM) /\
  (Substring "where" s -> Substring "spilled" s ->
     Analyze.classify m = Some Analyze.PROBLEM).
Proof.
  intros s. subst s.
  assert (Hspill : Substring "spilled" (lower m) ->
                   AnyIn Analyze.problem_keywords (lower m)).
  { intros H. apply AnyIn_intro with (w := "spill").
    - simpl; auto.
    - apply (Substring_prefix "spill" "ed"). exact H. }
  rewrite classify_eq.
  rewrite <- !any_in_iff in *.
  destruct (any_in Analyze.tracking_keywords (lower m)),
           (any_in Analyze.problem_keywords (lower m));
    repeat split; intros; try tauto; try congruence; try discriminate;
    try (exfalso; intuition congruence).
Qed.

(** The two scenarios of the classifier. *)
Example classify_where_spilled :
  Analyze.classify "Where is my order, it arrived spilled"
  = Some Analyze.PROBLEM.
Proof. vm_compute. reflexivity. Qed.

Example classify_driver_late :
  Analyze.classify "Driver is very late, where is my order?"
  = Some Analyze.TRACKING.
Proof. vm_compute. reflexivity. Qed.

Example classify_completely_spilled :
  Analyze.classify "My food was completely spilled during delivery!"
  = Some Analyze.PROBLEM /\
  Analyze.categorize "My food was completely spilled during delivery!"
  = Some "spilled_food".
Proof. vm_compute. split; reflexivity. Qed.

(** C10: for every input the function returns from one of the three intent
    branches, each excluding the other two; whatever statement follows the
    [if] is not run, so the severity block contributes neither its report nor
    its exception. *)
Theorem analyze_returns_from_one_branch (m : string) :
  (exists r,
     Analyze.analyze_customer_situation m = Return r /\
     (r = Analyze.TrackingRequestDetected \/
      (exists t e, r = Analyze.ActualProblemDetected t e) \/
      r = Analyze.GeneralInquiryDetected m)) /\
  (exists i, Analyze.classify m = Some i) /\
  (forall (B : Type) (k : option string -> flow Analyze.report B),
     exists r, Analyze.intent_branches m = Return r /\
               (Analyze.intent_branches m ;; k) = Return r) /\
  (forall t s a,
     Analyze.analyze_customer_situation m
     <> Return (Analyze.DynamicAnalysisComplete t s a)) /\
  (forall e, Analyze.analyze_customer_situation m <> Raise e).
Proof.
  unfold Analyze.analyze_customer_situation.
  rewrite classify_eq, intent_branches_eq.
  destruct (any_in Analyze.tracking_keywords (lower m)),
           (any_in Analyze.problem_keywords (lower m)); cbn [and_then];
    repeat split; eauto 7; try discriminate.
Qed.

(** The block after the [if] could only raise: had control reached it, the
    template's free names would have stopped it. *)
Lemma severity_block_raises (env : option string) :
  exists e, Analyze.severity_block env = Raise e.
Proof.
  destruct env as [t|]; cbn [Analyze.severity_block]; [|eauto].
  destruct (mem t ["spilled"; "damaged"]); [cbn [and_then]; eauto|].
  destruct (mem t ["wrong_order"; "missing_items"]); [cbn [and_then]; eauto|].
  destruct (mem t ["late_delivery"; "cold_food"]); cbn [and_then]; eauto.
Qed.

(** ** The issue categorizer *)

Section CategoryFacts.

Import Priority.





End CategoryFacts.




(** ** Severity scoring *)

Section SeverityFacts.

Import Orchestrate.


End SeverityFacts.

(** ** The generator *)

Section RandomFacts.

Lemma choice_In (l : list Z) (g : Random.state) :
  l <> [] -> In (fst (Random.choice l g)) l.
Proof.
  intros Hl. unfold Random.choice, Random.bind, Random.ret, Random.randbelow.
  assert (Hlen : (0 < List.length l)%nat).
  { destruct l; [congruence | simpl; lia]. }
  destruct g as [|x g]; simpl; apply nth_In; trivial.
  apply Nat.mod_upper_bound. lia.
Qed.

(** What a bind produces, by the value and the state of its first part. *)
Lemma run_bind {A B : Type} (m : Random.M A) (k : A -> Random.M B)
  (g : Random.state) :
  Random.run (Random.bind m k) g = Random.run (k (fst (m g))) (snd (m g)).
Proof.
  unfold Random.run, Random.bind. now destruct (m g).
Qed.

Lemma bind_eq {A B : Type} (m : Random.M A) (k : A -> Random.M B)
  (g : Random.state) :
  Random.bind m k g = k (fst (m g)) (snd (m g)).
Proof.
  unfold Random.bind. now destruct (m g).
Qed.

End RandomFacts.

(** ** The negotiation *)

Section NegotiationFacts.

Import Tools.
Open Scope Z_scope.

Lemma int_of_digits_nonneg (d : string) : 0 <= Re.int_of_digits d.
Proof.
  unfold Re.int_of_digits.
  assert (H : forall acc, 0 <= acc ->
    0 <= (fix go (acc : Z) (d : string) : Z :=
            match d with
            | EmptyString => acc
            | String c d' => go (10 * acc + Re.digit_value c) d'
            end) acc d).
  { induction d as [|c d IH]; intros acc Hacc; trivial.
    apply IH. unfold Re.digit_value. lia. }
  apply H. lia.
Qed.

Lemma negotiate_extract_nonneg (d : string) : 0 <= negotiate_extract d.
Proof.
  unfold negotiate_extract.
  destruct (contains Re.rupee_sign d); [|lia].
  destruct (Re.search Re.symbol_amount d); [apply int_of_digits_nonneg | lia].
Qed.

Lemma negotiate_issue_percentage (d : string) :
  In (snd (negotiate_issue d)) [30; 40; 15; 35; 25].
Proof.
  unfold negotiate_issue. cbv zeta.
  repeat match goal with
         | |- context [if ?b then _ else _] => destruct b
         end; simpl; auto 7.
Qed.

(** The fields of a negotiation, whatever the generator state. *)
Lemma negotiation_fields (d : string) (g : Random.state) :
  let n := Random.run (negotiate_fair_compensation d) g in
  let ov := negotiate_extract d in
  let p := snd (negotiate_issue d) in
  order_value n = ov /\
  issue_type n = fst (negotiate_issue d) /\
  base_percentage n = p /\
  tier_1_offer n = PyNum.int_div (ov * p) 100 /\
  tier_2_offer n
  = Z.min (PyNum.int_div (ov * p) 100 + 30) (PyNum.int_mul_tenths ov 4) /\
  tier_3_offer n
  = Z.min (PyNum.int_mul_tenths ov 5) (PyNum.int_div (ov * p) 100 + 60) /\
  In (goodwill_voucher n) [30; 40; 50].
Proof.
  cbv zeta. unfold negotiate_fair_compensation.
  destruct (negotiate_issue d) as [t p]; cbn [fst snd].
  rewrite !run_bind. unfold Random.run, Random.ret.
  cbn [fst order_value issue_type base_percentage tier_1_offer tier_2_offer
       tier_3_offer goodwill_voucher].
  repeat split. apply choice_In. discriminate.
Qed.


End NegotiationFacts.

(** ** Refunds and vouchers *)

Section RefundFacts.

Import Tools.
Open Scope Z_scope.

Lemma get_cases {V : Type} (d : list (string * V)) (key : string) (default : V) :
  PyNum.get d key default = default \/ In (PyNum.get d key default) (map snd d).
Proof.
  induction d as [|[k v] d IH]; simpl; auto.
  destruct (String.eqb k key); [auto | tauto].
Qed.

Lemma refund_percentage_range (issue_type expectation : string) :
  0 <= fst (refund_percentage issue_type expectation) <= 50.
Proof.
  unfold refund_percentage.
  generalize (get_cases compensation_matrix issue_type (40, 60)).
  generalize (PyNum.get compensation_matrix issue_type (40, 60)).
  intros cr H. unfold compensation_matrix in H. cbn [map snd In] in H.
  repeat match type of H with
         | _ \/ _ => destruct H as [H | H]
         end; try contradiction; subst cr;
    repeat match goal with
           | |- context [if ?b then _ else _] => destruct b
           end; cbn; lia.
Qed.

(** The fields of a refund calculation, whatever the generator state. *)
Lemma refund_fields (ov : Z) (issue_type expectation : string)
  (g : Random.state) :
  let r := Random.run
             (calculate_dynamic_refund_amount ov issue_type expectation) g in
  let p := fst (refund_percentage issue_type expectation) in
  percentage r = p /\
  refund_amount r = PyNum.int_div (ov * p) 100 /\
  In (goodwill_credit r) [50; 75; 100].
Proof.
  cbv zeta. unfold calculate_dynamic_refund_amount.
  destruct (refund_percentage issue_type expectation) as [p t]; cbn [fst].
  rewrite !run_bind. unfold Random.run, Random.ret.
  cbn [fst percentage refund_amount goodwill_credit].
  repeat split. apply choice_In. discriminate.
Qed.

Lemma int_div_percent_bound (ov p c : Z) :
  0 <= ov -> 0 <= p <= c ->
  0 <= PyNum.int_div (ov * p) 100 /\
  100 * PyNum.int_div (ov * p) 100 <= c * ov.
Proof.
  intros Hov Hp. unfold PyNum.int_div.
  rewrite Z.quot_div_nonneg by nia.
  pose proof (Z.div_mod (ov * p) 100 ltac:(lia)) as E.
  pose proof (Z.mod_pos_bound (ov * p) 100 ltac:(lia)) as B.
  split; [apply Z.div_pos; nia | nia].
Qed.


End RefundFacts.

(** ** The ceiling, the tiers, the amounts *)

Section Policy.

Import Tools.
Open Scope Z_scope.


Lemma run_twice {A : Type} (m : Random.M A) (g : Random.state) :
  Random.run (Random.twice m) g
  = (Random.run m g, Random.run m (snd (m g))).
Proof.
  unfold Random.twice. rewrite !run_bind. reflexivity.
Qed.

End Policy.





(** C6, as the code has it: the order value read from the text, the
    percentage and the refund amounts (the three tiers, the refund) are the
    same for the same input whatever the generator state, so also across two
    calls in a row; the goodwill credit and the default order value of
    [gather_compensation_details] are drawn at random. *)
Theorem policy_amounts_deterministic :
  (forall d g1 g2,
     let a := Random.run (Tools.negotiate_fair_compensation d) g1 in
     let b := Random.run (Tools.negotiate_fair_compensation d) g2 in
     Tools.order_value a = Tools.order_value b /\
     Tools.base_percentage a = Tools.base_percentage b /\
     Tools.tier_1_offer a = Tools.tier_1_offer b /\
     Tools.tier_2_offer a = Tools.tier_2_offer b /\
     Tools.tier_3_offer a = Tools.tier_3_offer b) /\
  (forall ov issue_type expectation g1 g2,
     let a := Random.run
                (Tools.calculate_dynamic_refund_amount ov issue_type expectation)
                g1 in
     let b := Random.run
                (Tools.calculate_dynamic_refund_amount ov issue_type expectation)
                g2 in
     Tools.percentage a = Tools.percentage b /\
     Tools.refund_amount a = Tools.refund_amount b) /\
  (forall q g1 g2,
     Tools.falsy (Tools.gather_extract q) = false ->
     Tools.g_order_value (Random.run (Tools.gather_compensation_details q) g1)
     = Tools.g_order_value (Random.run (Tools.gather_compensation_details q) g2)) /\
  (forall d g,
     let ab := Random.run
                 (Random.twice (Tools.negotiate_fair_compensation d)) g in
     Tools.tier_1_offer (fst ab) = Tools.tier_1_offer (snd ab) /\
     Tools.tier_2_offer (fst ab) = Tools.tier_2_offer (snd ab) /\
     Tools.tier_3_offer (fst ab) = Tools.tier_3_offer (snd ab)).
Proof.
  assert (N : forall d g1 g2,
     let a := Random.run (Tools.negotiate_fair_compensation d) g1 in
     let b := Random.run (Tools.negotiate_fair_compensation d) g2 in
     Tools.order_value a = Tools.order_value b /\
     Tools.base_percentage a = Tools.base_percentage b /\
     Tools.tier_1_offer a = Tools.tier_1_offer b /\
     Tools.tier_2_offer a = Tools.tier_2_offer b /\
     Tools.tier_3_offer a = Tools.tier_3_offer b).
  { intros d g1 g2. cbv zeta.
    destruct (negotiation_fields d g1) as (-> & _ & -> & -> & -> & -> & _).
    destruct (negotiation_fields d g2) as (-> & _ & -> & -> & -> & -> & _).
    repeat split. }
  split; [exact N|]. split; [|split].
  - intros ov issue_type expectation g1 g2. cbv zeta.
    destruct (refund_fields ov issue_type expectation g1) as (-> & -> & _).
    destruct (refund_fields ov issue_type expectation g2) as (-> & -> & _).
    split; reflexivity.
  - intros q g1 g2 Hq. unfold Tools.gather_compensation_details.
    rewrite Hq. rewrite !run_bind. reflexivity.
  - intros d g. cbv zeta. rewrite run_twice. cbn [fst snd].
    pose proof (N d g (snd (Tools.negotiate_fair_compensation d g))) as H.
    cbv zeta in H. tauto.
Qed.

(** C6 as stated fails: two calls in a row with the same text offer goodwill
    credits of 30 and of 40, and assume order values of 250 and of 350. *)
Lemma credit_differs_between_calls :
  let ab := Random.run
              (Random.twice (Tools.negotiate_fair_compensation "₹400 wrong order"))
              [0; 0; 0; 0; 1; 0]%nat in
  let cd := Random.run
              (Random.twice (Tools.gather_compensation_details "my food was spilled"))
              [0; 1]%nat in
  Tools.goodwill_voucher (fst ab) = 30%Z /\
  Tools.goodwill_voucher (snd ab) = 40%Z /\
  Tools.g_order_value (fst cd) = 250%Z /\
  Tools.g_order_value (snd cd) = 350%Z.
Proof. vm_compute. repeat split. Qed.

(** ** The order-value patterns *)

Module ReFacts.

Import Re.

Lemma digit_not_space (c : ascii) : is_digit c = true -> is_space c = false.
Proof.
  unfold is_digit, is_space. cbv zeta.
  generalize (nat_of_ascii c) as n. intros n H.
  apply andb_true_iff in H. destruct H as [H1 H2].
  apply Nat.leb_le in H1.
  apply orb_false_iff. split; apply andb_false_iff.
  - right. apply Nat.leb_gt. lia.
  - right. apply Nat.leb_gt. lia.
Qed.

Lemma space_not_digit (c : ascii) : is_space c = true -> is_digit c = false.
Proof.
  intros H. destruct (is_digit c) eqn:E; trivial.
  apply digit_not_space in E. congruence.
Qed.

Lemma literal_iff (w s r : string) :
  literal w s = Some r <-> s = w ++ r.
Proof.
  revert s; induction w as [|a w IH]; intros s; simpl.
  - split; congruence.
  - destruct s as [|b s].
    + split; discriminate.
    + destruct (Ascii.eqb a b) eqn:E.
      * apply Ascii.eqb_eq in E. subst b. rewrite IH. split; congruence.
      * apply Ascii.eqb_neq in E. split; [discriminate | congruence].
Qed.

Lemma digit_run_spec (s : string) :
  s = fst (digit_run s) ++ snd (digit_run s) /\
  all is_digit (fst (digit_run s)) = true /\
  starts_with is_digit (snd (digit_run s)) = false.
Proof.
  induction s as [|c s IH]; simpl; auto.
  destruct (is_digit c) eqn:E.
  - destruct (digit_run s) as [d r]; simpl in *.
    rewrite E. destruct IH as (-> & Hd & Hr). auto.
  - simpl. auto.
Qed.

Lemma digit_run_unique (d r : string) :
  all is_digit d = true -> starts_with is_digit r = false ->
  digit_run (d ++ r) = (d, r).
Proof.
  intros Hd Hr. induction d as [|c d IH]; simpl in *.
  - destruct r as [|c r]; trivial. simpl in *. now rewrite Hr.
  - apply andb_true_iff in Hd. destruct Hd as [Hc Hd].
    rewrite Hc, (IH Hd). reflexivity.
Qed.

Lemma spaces_spec (s : string) :
  exists sp, s = sp ++ spaces s /\ all is_space sp = true /\
             starts_with is_space (spaces s) = false.
Proof.
  induction s as [|c s IH]; simpl.
  - exists "". auto.
  - destruct (is_space c) eqn:E.
    + destruct IH as (sp & Hs & Hsp & Hr).
      exists (String c sp). simpl. rewrite E. repeat split; trivial.
      congruence.
    + exists "". simpl. auto.
Qed.

Lemma spaces_unique (sp r : string) :
  all is_space sp = true -> starts_with is_space r = false ->
  spaces (sp ++ r) = r.
Proof.
  intros Hsp Hr. induction sp as [|c sp IH]; simpl in *.
  - destruct r as [|c r]; trivial. simpl in *. now rewrite Hr.
  - apply andb_true_iff in Hsp. destruct Hsp as [Hc Hsp].
    rewrite Hc. auto.
Qed.

Lemma digits1_iff (s d r : string) :
  digits1 s = Some (d, r) <->
  s = d ++ r /\ d <> "" /\ all is_digit d = true /\
  starts_with is_digit r = false.
Proof.
  unfold digits1. split.
  - pose proof (digit_run_spec s) as (Hs & Hd & Hr).
    destruct (digit_run s) as [d0 r0]; simpl in *.
    destruct d0; [discriminate|]. intros [= <- <-].
    repeat split; trivial. discriminate.
  - intros (-> & Hne & Hd & Hr). rewrite digit_run_unique by trivial.
    destruct d; congruence.
Qed.

Lemma starts_with_digits (f : ascii -> bool) (d r : string) :
  d <> "" -> all is_digit d = true ->
  (forall c, is_digit c = true -> f c = false) ->
  starts_with f (d ++ r) = false.
Proof.
  intros Hne Hd Hf. destruct d as [|c d]; [congruence|]. simpl in *.
  apply andb_true_iff in Hd. destruct Hd as [Hc _]. auto.
Qed.

Lemma symbol_amount_iff (s d : string) :
  symbol_amount s = Some d <->
  exists r, s = rupee_sign ++ d ++ r /\ d <> "" /\
            all is_digit d = true /\ starts_with is_digit r = false.
Proof.
  unfold symbol_amount. split.
  - destruct (literal rupee_sign s) as [r0|] eqn:L; [|discriminate].
    apply literal_iff in L.
    destruct (digits1 r0) as [[d0 r]|] eqn:D; [|discriminate].
    simpl. intros [= ->]. apply digits1_iff in D.
    destruct D as (-> & H). exists r. tauto.
  - intros (r & -> & Hne & Hd & Hr).
    assert (L : literal rupee_sign (rupee_sign ++ d ++ r) = Some (d ++ r))
      by now apply literal_iff.
    rewrite L.
    assert (D : digits1 (d ++ r) = Some (d, r)) by now apply digits1_iff.
    now rewrite D.
Qed.

Lemma rs_amount_iff (s d : string) :
  rs_amount s = Some d <->
  exists sp r, s = "rs" ++ sp ++ d ++ r /\ all is_space sp = true /\
               d <> "" /\ all is_digit d = true /\
               starts_with is_digit r = false.
Proof.
  unfold rs_amount. split.
  - destruct (literal "rs" s) as [r0|] eqn:L; [|discriminate].
    apply literal_iff in L.
    destruct (digits1 (spaces r0)) as [[d0 r]|] eqn:D; [|discriminate].
    simpl. intros [= ->]. apply digits1_iff in D.
    destruct D as (E & H).
    destruct (spaces_spec r0) as (sp & Hs & Hsp & _).
    exists sp, r. rewrite <- E, <- Hs. tauto.
  - intros (sp & r & -> & Hsp & Hne & Hd & Hr).
    assert (L : literal "rs" ("rs" ++ sp ++ d ++ r) = Some (sp ++ d ++ r))
      by now apply literal_iff.
    rewrite L. rewrite spaces_unique; trivial.
    + assert (D : digits1 (d ++ r) = Some (d, r)) by now apply digits1_iff.
      now rewrite D.
    + apply starts_with_digits; trivial. apply digit_not_space.
Qed.

Lemma amount_rupees_iff (s d : string) :
  amount_rupees s = Some d <->
  exists sp r, s = d ++ sp ++ "rupees" ++ r /\ d <> "" /\
               all is_digit d = true /\ all is_space sp = true.
Proof.
  unfold amount_rupees. split.
  - destruct (digits1 s) as [[d0 r0]|] eqn:D; [|discriminate].
    apply digits1_iff in D. destruct D as (-> & Hne & Hd & _).
    destruct (literal "rupees" (spaces r0)) as [r|] eqn:L; [|discriminate].
    apply literal_iff in L. intros [= ->].
    destruct (spaces_spec r0) as (sp & Hs & Hsp & _).
    exists sp, r. rewrite <- L, <- Hs. tauto.
  - intros (sp & r & -> & Hne & Hd & Hsp).
    assert (D : digits1 (d ++ sp ++ "rupees" ++ r)
                = Some (d, sp ++ "rupees" ++ r)).
    { apply digits1_iff. repeat split; trivial.
      destruct sp as [|c sp]; [reflexivity|]. simpl in *.
      apply andb_true_iff in Hsp. destruct Hsp as [Hc _].
      now apply space_not_digit. }
    rewrite D. rewrite spaces_unique by (trivial; reflexivity).
    reflexivity.
Qed.

(** [search] answers with the match at the leftmost position that has one. *)
Lemma search_iff (p : string -> option string) (s d : string) :
  search p s = Some d <->
  exists a b, s = a ++ b /\ p b = Some d /\
              forall a1 a2, a = a1 ++ a2 -> a2 <> "" -> p (a2 ++ b) = None.
Proof.
  induction s as [|c s IH].
  - simpl. split.
    + destruct (p "") eqn:E; [|discriminate]. intros [= ->].
      exists "", "". repeat split; trivial.
      intros a1 a2 H. destruct a1, a2; try discriminate. congruence.
    + intros (a & b & H & Hb & _).
      destruct a; [|discriminate]. simpl in H. subst b. now rewrite Hb.
  - cbn [search]. destruct (p (String c s)) eqn:E.
    + split.
      * intros [= ->]. exists "", (String c s). repeat split; trivial.
        intros a1 a2 H. destruct a1, a2; try discriminate. congruence.
      * intros (a & b & H & Hb & Hleft). destruct a as [|c' a].
        -- simpl in H. subst b. congruence.
        -- specialize (Hleft "" (String c' a) eq_refl ltac:(discriminate)).
           rewrite <- H in Hleft. congruence.
    + rewrite IH. split.
      * intros (a & b & -> & Hb & Hleft). exists (String c a), b.
        repeat split; trivial.
        intros a1 a2 H Hne. destruct a1 as [|c1 a1]; simpl in H.
        -- subst a2. exact E.
        -- injection H as _ H. now apply (Hleft a1).
      * intros (a & b & H & Hb & Hleft). destruct a as [|c' a].
        -- simpl in H. subst b. congruence.
        -- simpl in H. injection H as _ H. exists a, b.
           repeat split; trivial.
           intros a1 a2 Ha Hne. apply (Hleft (String c' a1)); trivial.
           simpl. now rewrite Ha.
Qed.

End ReFacts.

(** ** Reading the order value *)

Section ExtractionFacts.

Import Re ReFacts Tools.

Lemma lower_app_inv (q a b : string) :
  lower q = a ++ b ->
  exists a' b', q = a' ++ b' /\ lower a' = a /\ lower b' = b.
Proof.
  revert q; induction a as [|c a IH]; intros q H.
  - exists "", q. auto.
  - destruct q as [|c' q]; [discriminate|]. simpl in H.
    injection H as Hc H. destruct (IH q H) as (a' & b' & -> & <- & <-).
    exists (String c' a'), b'. simpl. rewrite Hc. auto.
Qed.

(** Lowering produces no byte above the ASCII range that was not there. *)
Lemma lower_char_high (c : ascii) :
  (128 <= nat_of_ascii (lower_char c))%nat -> lower_char c = c.
Proof.
  unfold lower_char. cbv zeta.
  destruct ((65 <=? nat_of_ascii c)%nat && (nat_of_ascii c <=? 90)%nat) eqn:E;
    trivial.
  apply andb_true_iff in E. destruct E as [_ E]. apply Nat.leb_le in E.
  rewrite nat_ascii_embedding by lia. lia.
Qed.

Lemma lower_rupee_sign (w : string) : lower w = rupee_sign -> w = rupee_sign.
Proof.
  unfold rupee_sign.
  destruct w as [|c1 [|c2 [|c3 [|c4 w]]]]; try discriminate.
  simpl. intros [= H1 H2 H3].
  rewrite <- (lower_char_high c1), <- (lower_char_high c2),
          <- (lower_char_high c3);
    rewrite ?H1, ?H2, ?H3; trivial; vm_compute; lia.
Qed.

Lemma Substring_rupee_lower (q : string) :
  Substring rupee_sign (lower q) -> Substring rupee_sign q.
Proof.
  intros (a & b & H).
  apply lower_app_inv in H. destruct H as (a' & r & -> & _ & H).
  apply lower_app_inv in H. destruct H as (w & b' & -> & Hw & _).
  apply lower_rupee_sign in Hw. subst w. now exists a', b'.
Qed.

(** A match of the amount pattern shows one of the three marks. *)
Lemma amount_pattern_mark (s d : string) :
  search amount_pattern s = Some d ->
  Substring rupee_sign s \/ Substring "rs" s \/ Substring "rupees" s.
Proof.
  intros H. apply search_iff in H. destruct H as (a & b & -> & Hb & _).
  unfold amount_pattern in Hb.
  destruct (symbol_amount b) as [d1|] eqn:E1.
  - apply symbol_amount_iff in E1. destruct E1 as (r & -> & _).
    left. now exists a, (d1 ++ r).
  - destruct (rs_amount b) as [d2|] eqn:E2.
    + apply rs_amount_iff in E2. destruct E2 as (sp & r & -> & _).
      right; left. now exists a, (sp ++ d2 ++ r).
    + apply amount_rupees_iff in Hb. destruct Hb as (sp & r & -> & _).
      right; right. exists (a ++ d ++ sp), r.
      now rewrite !append_assoc.
Qed.

(** The guard before the search of [gather_compensation_details] rejects no
    text the pattern matches. *)
Lemma gather_extract_eq (q : string) :
  gather_extract q
  = option_map int_of_digits (search amount_pattern (lower q)).
Proof.
  unfold gather_extract.
  destruct (contains rupee_sign q || contains "rs" (lower q)
            || contains "rupees" (lower q)) eqn:G; trivial.
  destruct (search amount_pattern (lower q)) as [d|] eqn:S; trivial.
  exfalso. apply amount_pattern_mark in S.
  apply orb_false_iff in G. destruct G as [G G3].
  apply orb_false_iff in G. destruct G as [G1 G2].
  destruct S as [S | [S | S]].
  - apply Substring_rupee_lower, contains_iff in S. congruence.
  - apply contains_iff in S. congruence.
  - apply contains_iff in S. congruence.
Qed.

Lemma negotiate_extract_eq (d : string) :
  negotiate_extract d
  = match search symbol_amount d with
    | Some digits => int_of_digits digits
    | None => 500%Z
    end.
Proof.
  unfold negotiate_extract.
  destruct (contains rupee_sign d) eqn:G; trivial.
  destruct (search symbol_amount d) as [dd|] eqn:S; trivial.
  exfalso. apply search_iff in S. destruct S as (a & b & -> & Hb & _).
  apply symbol_amount_iff in Hb. destruct Hb as (r & -> & _).
  assert (C : contains rupee_sign (a ++ rupee_sign ++ dd ++ r) = true).
  { apply contains_iff. now exists a, (dd ++ r). }
  congruence.
Qed.

Lemma gather_order_value (q : string) (g : Random.state) :
  g_order_value (Random.run (gather_compensation_details q) g)
  = if falsy (gather_extract q)
    then fst (Random.choice [250; 350; 450; 550; 650; 750; 850; 950]%Z g)
    else match gather_extract q with Some v => v | None => 0%Z end.
Proof.
  unfold gather_compensation_details. rewrite run_bind.
  destruct (falsy (gather_extract q)); reflexivity.
Qed.

End ExtractionFacts.






(** ** Doubles and integer quotients *)

(** On the order values 0 to 2000 the amounts computed on doubles, as Python
    computes them, are the integer quotients of the embedding. *)
Lemma quotients_agree_with_binary64 :
  forallb Agreement.agree_at (map Z.of_nat (seq 0 2001)) = true.
Proof. vm_compute. reflexivity. Qed.

(** Where the factor is not a tenth of an integer percentage the double
    shows: 70 percent of 90 is 62. *)
Example poor_quality_refund_of_90 :
  Dynamic.refund_amount
    (Random.run (Dynamic.calculate_dynamic_compensation "poor_quality" (Some 90%Z)) [])
  = Some 62%Z.
Proof. vm_compute. reflexivity. Qed.

(** ** Escalation *)

(** [escalate_compensation_dissatisfaction] keeps no negotiation state: for
    every complaint it answers with a hand-off whose reason is one of five
    and which repeats the offer it was told about. *)
Lemma escalation_hands_off (complaint attempted : string) (g : Random.state) :
  let e := Random.run
             (Tools.escalate_compensation_dissatisfaction complaint attempted) g in
  Tools.max_compensation_offered e = attempted /\
  Tools.customer_response e = complaint /\
  In (Tools.escalation_reason e)
     [ "Requesting compensation above 50% policy limit";
       "Customer expressing strong dissatisfaction with policy";
       "Customer specifically requesting human intervention";
       "Customer threatening to escalate beyond Grab";
       "General dissatisfaction" ].
Proof.
  cbv zeta. unfold Tools.escalate_compensation_dissatisfaction.
  rewrite run_bind. unfold Random.run, Random.ret.
  cbn [fst Tools.max_compensation_offered Tools.customer_response
       Tools.escalation_reason].
  repeat split. unfold Tools.escalation_reason_of.
  repeat match goal with
         | |- context [if ?b then _ else _] => destruct b
         end; simpl; auto 7.
Qed.

(** * Further properties of the tools *)

(** ** Comma-separated fields *)

Section SplitFacts.

Import PyText.

Lemma split_max_nonempty (sep : ascii) (n : nat) (s : string) :
  split_max sep n s <> [].
Proof.
  revert n; induction s as [|c s IH]; intros n; simpl; [discriminate|].
  destruct (Ascii.eqb c sep).
  - destruct n; discriminate.
  - destruct (split_max sep n s); discriminate.
Qed.

Lemma join_cons (sep p : string) (ps : list string) :
  ps <> [] -> join sep (p :: ps) = p ++ sep ++ join sep ps.
Proof. destruct ps; [congruence | reflexivity]. Qed.

(** Cutting and joining again gives the text back. *)
Lemma join_split_max (sep : ascii) (n : nat) (s : string) :
  join (String sep "") (split_max sep n s) = s.
Proof.
  revert n; induction s as [|c s IH]; intros n; simpl; trivial.
  destruct (Ascii.eqb c sep) eqn:E.
  - apply Ascii.eqb_eq in E. subst c. destruct n as [|n]; trivial.
    rewrite join_cons by apply split_max_nonempty.
    rewrite IH. reflexivity.
  - specialize (IH n). pose proof (split_max_nonempty sep n s) as Hne.
    destruct (split_max sep n s) as [|p ps]; [congruence|].
    destruct ps as [|q ps].
    + simpl in *. now rewrite IH.
    + rewrite join_cons in * by discriminate. rewrite <- IH. reflexivity.
Qed.

Lemma split_max_length (sep : ascii) (n : nat) (s : string) :
  List.length (split_max sep n s) = S (Nat.min n (count sep s)).
Proof.
  revert n; induction s as [|c s IH]; intros n; simpl.
  - now rewrite Nat.min_0_r.
  - destruct (Ascii.eqb c sep).
    + destruct n as [|n]; simpl; trivial. now rewrite IH.
    + specialize (IH n). pose proof (split_max_nonempty sep n s) as Hne.
      destruct (split_max sep n s) as [|p ps]; [congruence|].
      simpl in *. exact IH.
Qed.

(** A text without the separator up to the first cut: the cut falls there. *)
Lemma split_max_app (sep : ascii) (n : nat) (a b : string) :
  count sep a = 0 ->
  split_max sep (S n) (a ++ String sep b) = a :: split_max sep n b.
Proof.
  intros Ha. induction a as [|c a IH]; simpl in *.
  - now rewrite Ascii.eqb_refl.
  - destruct (Ascii.eqb c sep); [discriminate|].
    rewrite IH by exact Ha. reflexivity.
Qed.

Lemma split_max_whole (sep : ascii) (n : nat) (a : string) :
  count sep a = 0 -> split_max sep n a = [a].
Proof.
  intros Ha. induction a as [|c a IH]; simpl in *; trivial.
  destruct (Ascii.eqb c sep); [discriminate|].
  now rewrite IH.
Qed.

Lemma split_max_zero (sep : ascii) (s : string) : split_max sep 0 s = [s].
Proof.
  induction s as [|c s IH]; simpl; trivial.
  destruct (Ascii.eqb c sep); trivial. now rewrite IH.
Qed.

(** Every part before the last is free of the separator. *)
Lemma split_max_parts (sep : ascii) (n : nat) (s : string) :
  Forall (fun p => count sep p = 0) (removelast (split_max sep n s)).
Proof.
  revert n; induction s as [|c s IH]; intros n; simpl; [constructor|].
  destruct (Ascii.eqb c sep) eqn:E.
  - destruct n as [|n]; [constructor|].
    pose proof (split_max_nonempty sep n s) as Hne. specialize (IH n).
    destruct (split_max sep n s) as [|p ps]; [congruence|].
    cbn [removelast]. constructor; trivial.
  - pose proof (split_max_nonempty sep n s) as Hne. specialize (IH n).
    destruct (split_max sep n s) as [|p ps]; [congruence|].
    destruct ps as [|q ps]; [constructor|].
    cbn [removelast] in *. inversion IH; subst.
    constructor; trivial. simpl. now rewrite E.
Qed.

Lemma contains_comma (s : string) :
  contains "," s = true <-> count comma s <> 0.
Proof.
  induction s as [|c s IH].
  - cbv. split; [intros H; discriminate H | intros H; congruence].
  - cbn [contains count]. rewrite orb_true_iff, IH, prefix_iff.
    destruct (Ascii.eqb c comma) eqn:E.
    + apply Ascii.eqb_eq in E. subst c. split; [simpl; lia|].
      intros _. left. now exists s.
    + apply Ascii.eqb_neq in E. simpl. split; [|tauto].
      intros [[b Hb] | H]; [|exact H].
      exfalso. apply E. simpl in Hb. now injection Hb.
Qed.

End SplitFacts.

Section FieldFacts.

Import PyText Fields.

Lemma count_le_length (c : ascii) (s : string) :
  count c s <= String.length s.
Proof.
  induction s as [|a s IH]; simpl; trivial.
  destruct (Ascii.eqb a c); lia.
Qed.

Lemma split_max_all_parts (sep : ascii) (n : nat) (s : string) :
  count sep s <= n ->
  Forall (fun p => count sep p = 0) (split_max sep n s).
Proof.
  revert n; induction s as [|c s IH]; intros n Hn; simpl in *.
  - repeat constructor.
  - destruct (Ascii.eqb c sep) eqn:E.
    + destruct n as [|n]; [lia|]. constructor; trivial. apply IH. lia.
    + specialize (IH n Hn). pose proof (split_max_nonempty sep n s) as Hne.
      destruct (split_max sep n s) as [|p ps]; [congruence|].
      inversion IH; subst. constructor; trivial. simpl. now rewrite E.
Qed.

(** Three fields cut at the first two commas. *)
Lemma unpack3_split (s : string) :
  (count comma s < 2 -> unpack3 (split_max comma 2 s) = None) /\
  (2 <= count comma s ->
   exists a b c,
     unpack3 (split_max comma 2 s) = Some (a, b, c) /\
     s = a ++ "," ++ b ++ "," ++ c /\
     count comma a = 0 /\ count comma b = 0).
Proof.
  pose proof (split_max_length comma 2 s) as L.
  pose proof (join_split_max comma 2 s) as J.
  pose proof (split_max_parts comma 2 s) as P.
  destruct (split_max comma 2 s) as [|a [|b [|c [|d l]]]];
    cbn [List.length] in L;
    split; intros H; try reflexivity; try lia.
  exists a, b, c. cbn [removelast] in P.
  inversion P as [|? ? Ha P']; subst. inversion P' as [|? ? Hb _]; subst.
  repeat split; trivial; symmetry; exact J.
Qed.

Lemma unpack3_split_app (a b c : string) :
  count comma a = 0 -> count comma b = 0 ->
  unpack3 (split_max comma 2 (a ++ "," ++ b ++ "," ++ c)) = Some (a, b, c).
Proof.
  intros Ha Hb.
  change (a ++ "," ++ b ++ "," ++ c)
    with (a ++ String comma (b ++ String comma c)).
  rewrite split_max_app by exact Ha.
  rewrite split_max_app by exact Hb.
  now rewrite split_max_zero.
Qed.

Lemma randint_range (a b : Z) (g : Random.state) :
  (a <= b)%Z -> (a <= fst (Random.randint a b g) <= b)%Z.
Proof.
  intros Hab. unfold Random.randint, Random.bind, Random.ret, Random.randbelow.
  destruct g as [|x g]; simpl; [lia|].
  assert (H : (x mod Z.to_nat (b - a + 1) < Z.to_nat (b - a + 1))%nat).
  { apply Nat.mod_upper_bound. lia. }
  lia.
Qed.

End FieldFacts.

(** X1: [issue_instant_refund] answers with its error text exactly when the
    details hold fewer than two commas; otherwise it reads the customer id up
    to the first comma, the amount up to the second and the reason after it,
    commas included, so that the three fields joined by commas are the
    details again; the amount is taken as it stands, numeric or not. *)
Theorem refund_details_fields (refund_details : string) :
  (PyText.count PyText.comma refund_details < 2 ->
   Fields.issue_instant_refund refund_details
   = Fields.Refused
       "Error: Please provide refund details as customer_id,amount,reason") /\
  (2 <= PyText.count PyText.comma refund_details ->
   exists customer_id amount reason,
     Fields.issue_instant_refund refund_details
     = Fields.Answered (customer_id, amount, reason) /\
     refund_details = customer_id ++ "," ++ amount ++ "," ++ reason /\
     PyText.count PyText.comma customer_id = 0 /\
     PyText.count PyText.comma amount = 0) /\
  (forall customer_id amount reason,
     PyText.count PyText.comma customer_id = 0 ->
     PyText.count PyText.comma amount = 0 ->
     Fields.issue_instant_refund (customer_id ++ "," ++ amount ++ "," ++ reason)
     = Fields.Answered (customer_id, amount, reason)).
Proof.
  unfold Fields.issue_instant_refund, Fields.three_fields.
  destruct (unpack3_split refund_details) as [Hlt Hge].
  split; [|split].
  - intros H. now rewrite (Hlt H).
  - intros H. destruct (Hge H) as (a & b & c & E & Hs & Ha & Hb).
    exists a, b, c. rewrite E. auto.
  - intros a b c Ha Hb. now rewrite unpack3_split_app.
Qed.

(** X2: [log_incident_report] refuses details with fewer than two commas
    without drawing a number; otherwise it keeps the three fields, whose join
    is the details, and numbers the report between 10000 and 99999. *)
Theorem incident_report_fields (incident_details : string) (g : Random.state) :
  (PyText.count PyText.comma incident_details < 2 ->
   Fields.log_incident_report incident_details g
   = (Fields.Refused
        "Error: Please provide incident details as incident_type,details,involved_parties",
      g)) /\
  (2 <= PyText.count PyText.comma incident_details ->
   exists incident_type details parties number,
     Random.run (Fields.log_incident_report incident_details) g
     = Fields.Answered (incident_type, details, parties, number) /\
     incident_details = incident_type ++ "," ++ details ++ "," ++ parties /\
     PyText.count PyText.comma incident_type = 0 /\
     PyText.count PyText.comma details = 0 /\
     (10000 <= number <= 99999)%Z).
Proof.
  unfold Fields.log_incident_report.
  destruct (unpack3_split incident_details) as [Hlt Hge].
  split.
  - intros H. now rewrite (Hlt H).
  - intros H. destruct (Hge H) as (a & b & c & E & Hs & Ha & Hb).
    rewrite E. exists a, b, c, (fst (Random.randint 10000 99999 g)).
    rewrite run_bind. unfold Random.run, Random.ret. cbn [fst].
    repeat split; trivial; apply randint_range; lia.
Qed.

(** X3: [offer_compensation_voucher] issues a voucher exactly when the
    details hold two commas, no more and no fewer; the three fields then hold
    no comma and joined by commas are the details. *)
Theorem voucher_details_fields (voucher_details : string) :
  (PyText.count PyText.comma voucher_details <> 2 ->
   Fields.offer_compensation_voucher voucher_details
   = Fields.Refused
       "Error: Please provide voucher details as customer_id,amount,voucher_type") /\
  (PyText.count PyText.comma voucher_details = 2 ->
   exists customer_id amount voucher_type,
     Fields.offer_compensation_voucher voucher_details
     = Fields.Answered (customer_id, amount, voucher_type) /\
     voucher_details = customer_id ++ "," ++ amount ++ "," ++ voucher_type /\
     PyText.count PyText.comma customer_id = 0 /\
     PyText.count PyText.comma amount = 0 /\
     PyText.count PyText.comma voucher_type = 0).
Proof.
  unfold Fields.offer_compensation_voucher, PyText.split.
  pose proof (count_le_length PyText.comma voucher_details) as Hc.
  pose proof (split_max_length PyText.comma (String.length voucher_details)
                voucher_details) as L.
  rewrite Nat.min_r in L by exact Hc.
  pose proof (join_split_max PyText.comma (String.length voucher_details)
                voucher_details) as J.
  pose proof (split_max_all_parts PyText.comma (String.length voucher_details)
                voucher_details Hc) as P.
  destruct (PyText.split_max PyText.comma (String.length voucher_details)
              voucher_details) as [|a [|b [|c [|d l]]]];
    cbn [List.length] in L;
    split; intros H; try reflexivity; try lia.
  exists a, b, c.
  inversion P as [|? ? Ha P1]; subst. inversion P1 as [|? ? Hb P2]; subst.
  inversion P2 as [|? ? Hc' _]; subst.
  repeat split; trivial; symmetry; exact J.
Qed.

(** X4: [escalate_to_human] escalates whatever it is given; with at least two
    commas the priority is the text between the first two, and the response
    time is 30 minutes only for the priority "high" and 2 hours only for
    "medium", letter for letter: " high" with a space waits 24 hours. *)
Theorem escalation_response_time :
  (forall reason urgency summary,
     PyText.count PyText.comma reason = 0 ->
     PyText.count PyText.comma urgency = 0 ->
     exists time,
       Fields.escalate_to_human (reason ++ "," ++ urgency ++ "," ++ summary)
       = Fields.Answered (Fields.mkEscalated urgency reason time) /\
       (time = "30 minutes" <-> urgency = "high") /\
       (time = "2 hours" <-> urgency = "medium") /\
       (time = "24 hours" <-> urgency <> "high" /\ urgency <> "medium")) /\
  (forall escalation_request,
     PyText.count PyText.comma escalation_request < 2 ->
     Fields.escalate_to_human escalation_request
     = Fields.Refused
         "Case escalated to human agent team for specialized handling.") /\
  Fields.escalate_to_human "refund dispute, high, customer upset"
  = Fields.Answered
      (Fields.mkEscalated " high" "refund dispute" "24 hours").
Proof.
  split; [|split].
  - intros reason urgency summary Hr Hu.
    unfold Fields.escalate_to_human. rewrite unpack3_split_app by trivial.
    destruct (String.eqb urgency "high") eqn:E1.
    + apply String.eqb_eq in E1. subst urgency.
      eexists; split; [reflexivity|].
      repeat split; intros; trivial; try discriminate; tauto.
    + apply String.eqb_neq in E1.
      destruct (String.eqb urgency "medium") eqn:E2.
      * apply String.eqb_eq in E2. subst urgency.
        eexists; split; [reflexivity|].
        repeat split; intros; trivial; try discriminate; tauto.
      * apply String.eqb_neq in E2.
        eexists; split; [reflexivity|].
        repeat split; intros; trivial; try discriminate; tauto.
  - intros s H. unfold Fields.escalate_to_human.
    destruct (unpack3_split s) as [Hlt _]. now rewrite (Hlt H).
  - vm_compute. reflexivity.
Qed.

Lemma id_and_spec (default s : string) :
  exists id rest,
    Fields.id_and default s = Fields.Answered (id, rest) /\
    PyText.count PyText.comma id = 0 /\
    (contains "," s = true -> s = id ++ "," ++ rest) /\
    (contains "," s = false -> id = s /\ rest = default).
Proof.
  unfold Fields.id_and.
  destruct (contains "," s) eqn:C.
  - apply contains_comma in C.
    pose proof (split_max_length PyText.comma 1 s) as L.
    pose proof (join_split_max PyText.comma 1 s) as J.
    pose proof (split_max_parts PyText.comma 1 s) as P.
    destruct (PyText.split_max PyText.comma 1 s) as [|a [|b [|c l]]];
      cbn [List.length] in L; try lia.
    exists a, b. cbn [removelast] in P.
    inversion P as [|? ? Ha _]; subst.
    split; [reflexivity|]. split; [exact Ha|].
    split; [intros _; first [symmetry; exact J | reflexivity]
          | intros H; discriminate H].
  - exists s, default.
    split; [reflexivity|]. split.
    + destruct (PyText.count PyText.comma s) eqn:E; trivial.
      assert (H : contains "," s = true) by (apply contains_comma; lia).
      congruence.
    + split; [intros H; discriminate H | auto].
Qed.

(** X5: [exonerate_driver] and [verify_customer_identity] never fail: the id
    they read holds no comma; with a comma in the input the id and the rest
    joined by a comma are the input, the rest keeping any further comma;
    without one the id is the whole input and the second field the default
    ("Evidence supports innocence", "standard"). *)
Theorem id_and_rest_fields (s : string) :
  (exists id rest,
     Fields.exonerate_driver s = Fields.Answered (id, rest) /\
     PyText.count PyText.comma id = 0 /\
     (contains "," s = true -> s = id ++ "," ++ rest) /\
     (contains "," s = false ->
      id = s /\ rest = "Evidence supports innocence")) /\
  (exists id rest,
     Fields.verify_customer_identity s = Fields.Answered (id, rest) /\
     PyText.count PyText.comma id = 0 /\
     (contains "," s = true -> s = id ++ "," ++ rest) /\
     (contains "," s = false -> id = s /\ rest = "standard")).
Proof.
  split; apply id_and_spec.
Qed.

Lemma pick_In {A : Type} (d : A) (l : list A) (g : Random.state) :
  l <> [] -> In (fst (Pick.choice d l g)) l.
Proof.
  intros Hl. unfold Pick.choice, Random.bind, Random.ret, Random.randbelow.
  assert (Hlen : (0 < List.length l)%nat).
  { destruct l; [congruence | simpl; lia]. }
  destruct g as [|x g]; simpl; apply nth_In; trivial.
  apply Nat.mod_upper_bound. lia.
Qed.

(** ** Traffic, rerouting, weather *)

Section OccurrenceFacts.

Import PyText.

Lemma prefix_agree (w x r : string) :
  prefix w (x ++ r) = true -> agree w x = true.
Proof.
  unfold agree. revert x; induction w as [|c w IH]; intros x H.
  - destruct x; reflexivity.
  - destruct x as [|d x].
    + reflexivity.
    + simpl in *. destruct (ascii_dec c d) as [->|Hne]; [|discriminate].
      specialize (IH x H). destruct (ascii_dec d d); [exact IH | congruence].
Qed.

Lemma contains_after (w a rest : string) :
  no_start w a = true -> contains w (a ++ rest) = contains w rest.
Proof.
  induction a as [|c a IH]; intros H; trivial.
  cbn [no_start] in H. apply andb_true_iff in H. destruct H as [H1 H2].
  change (String c a ++ rest) with (String c (a ++ rest)).
  cbn [contains]. rewrite (IH H2).
  destruct (prefix w (String c (a ++ rest))) eqn:P; trivial.
  apply (prefix_agree w (String c a) rest) in P.
  rewrite P in H1. discriminate.
Qed.

Lemma prefix_before (w x : string) (b0 : ascii) (b : string) :
  count b0 w = 0 ->
  prefix w (x ++ String b0 b) = prefix w x.
Proof.
  revert x; induction w as [|c w IH]; intros x Hw.
  - destruct x; reflexivity.
  - simpl in Hw. destruct (Ascii.eqb c b0) eqn:E; [discriminate|].
    apply Ascii.eqb_neq in E. destruct x as [|d x]; simpl.
    + destruct (ascii_dec c b0); [congruence | reflexivity].
    + destruct (ascii_dec c d); [apply IH; exact Hw | reflexivity].
Qed.

Lemma contains_before (w s : string) (b0 : ascii) (b : string) :
  count b0 w = 0 -> contains w (String b0 b) = false ->
  contains w (s ++ String b0 b) = contains w s.
Proof.
  intros Hw Hb. induction s as [|c s IH].
  - simpl (_ ++ _). rewrite Hb. destruct w as [|d w]; [discriminate Hb|].
    reflexivity.
  - change (String c s ++ String b0 b) with (String c (s ++ String b0 b)).
    cbn [contains]. rewrite IH.
    change (String c (s ++ String b0 b)) with (String c s ++ String b0 b).
    now rewrite prefix_before.
Qed.

(** Between a head no occurrence can begin in and a tail that holds none and
    whose first character the word lacks, a word occurs only in the middle. *)
Lemma contains_middle (w a s : string) (b0 : ascii) (b : string) :
  no_start w a = true -> count b0 w = 0 ->
  contains w (String b0 b) = false ->
  contains w (a ++ s ++ String b0 b) = contains w s.
Proof.
  intros Ha Hw Hb. rewrite contains_after by exact Ha.
  now apply contains_before.
Qed.

End OccurrenceFacts.

(** X6: the recommendation of [check_traffic] is read off the last of the
    five condition texts, not off the one drawn: it is "Consider alternative
    routes" exactly when the location itself contains "Heavy" or "Severe",
    whatever condition is reported, and "Current route optimal" otherwise,
    also under a reported severe congestion. *)
Theorem traffic_recommendation (location route : string) (g : Random.state) :
  let t := Random.run (Delivery.check_traffic location route) g in
  (Delivery.recommendation t = "Consider alternative routes" <->
   Substring "Heavy" location \/ Substring "Severe" location) /\
  (Delivery.recommendation t = "Current route optimal" <->
   ~ (Substring "Heavy" location \/ Substring "Severe" location)) /\
  In (Delivery.traffic_status t) (Delivery.traffic_conditions location) /\
  (exists g',
     Delivery.traffic_status
       (Random.run (Delivery.check_traffic "MG Road" "") g')
     = "Traffic Status for MG Road: Severe congestion - accident reported. +25-30 minutes delay. Rerouting recommended." /\
     Delivery.recommendation
       (Random.run (Delivery.check_traffic "MG Road" "") g')
     = "Current route optimal").
Proof.
  cbv zeta. unfold Delivery.check_traffic. cbv zeta.
  rewrite run_bind. unfold Random.run, Random.ret.
  cbn [fst Delivery.recommendation Delivery.traffic_status].
  assert (L : forall w,
             PyText.no_start w "Traffic Status for " = true ->
             PyText.count ":"%char w = 0 ->
             contains w ": Road closure in effect. Alternative route required. +10-15 minutes delay." = false ->
             contains w (last (Delivery.traffic_conditions location) "")
             = contains w location).
  { intros w H1 H2 H3. cbn [Delivery.traffic_conditions last].
    now apply contains_middle. }
  rewrite (L "Heavy"), (L "Severe") by reflexivity.
  rewrite <- !contains_iff.
  repeat split.
  - destruct (contains "Heavy" location), (contains "Severe" location);
      simpl; intros H; auto; discriminate H.
  - intros [H|H]; rewrite H; [reflexivity | now rewrite orb_true_r].
  - destruct (contains "Heavy" location), (contains "Severe" location);
      simpl; intros H [H'|H']; discriminate.
  - destruct (contains "Heavy" location), (contains "Severe" location);
      simpl; intros H; trivial; exfalso; apply H; auto.
  - apply pick_In. discriminate.
  - exists [3%nat]. vm_compute. split; reflexivity.
Qed.

(** X7: [reroute_driver] never lengthens the trip: the original ETA is
    between 12 and 25 minutes, the optimized ETA is at least 8 minutes and
    below the original, and the time saved is between 3 and 8 minutes,
    whatever the distance draw. *)
Theorem reroute_saves_time (D : Type) (distance : Random.M D)
  (driver_id new_route : string) (g : Random.state) :
  let r := Random.run (Delivery.reroute_driver distance driver_id new_route) g in
  (12 <= Delivery.original_eta r <= 25 /\
   8 <= Delivery.optimized_eta r < Delivery.original_eta r /\
   3 <= Delivery.time_saved r <= 8 /\
   Delivery.time_saved r
   = Delivery.original_eta r - Delivery.optimized_eta r)%Z.
Proof.
  cbv zeta. unfold Delivery.reroute_driver.
  rewrite !run_bind. unfold Random.run, Random.ret.
  cbn [fst Delivery.original_eta Delivery.optimized_eta Delivery.time_saved].
  pose proof (randint_range 12 25 g ltac:(lia)) as H1.
  pose proof (randint_range 3 8 (snd (Random.randint 12 25 g)) ltac:(lia)) as H2.
  lia.
Qed.

(** X8: between 17 and 20 o'clock [check_weather_conditions] reports one of
    the first three scenarios, all of rain or storm, and never clear
    weather. *)
Theorem peak_hours_weather (current_hour : Z) (location_time : string)
  (g : Random.state) :
  (17 <= current_hour <= 20)%Z ->
  let w := snd (Random.run
                  (Delivery.check_weather_conditions current_hour location_time)
                  g) in
  In (Delivery.condition w)
     ["Heavy Rainfall"; "Thunderstorm Warning"; "Light Rain"] /\
  Delivery.condition w <> "Clear Weather" /\
  Delivery.delivery_impact w <> "No weather-related delays".
Proof.
  intros H. cbv zeta. unfold Delivery.check_weather_conditions.
  assert (E : ((17 <=? current_hour)%Z && (current_hour <=? 20)%Z) = true).
  { apply andb_true_iff. split; apply Z.leb_le; lia. }
  rewrite E, run_bind. unfold Random.run, Random.ret. cbn [fst snd].
  pose proof (pick_In Delivery.no_weather
                (firstn 3 Delivery.weather_scenarios) g ltac:(discriminate))
    as Hin.
  revert Hin.
  generalize (fst (Pick.choice Delivery.no_weather
                     (firstn 3 Delivery.weather_scenarios) g)).
  intros w Hin. cbn [firstn Delivery.weather_scenarios In] in Hin.
  destruct Hin as [<- | [<- | [<- | []]]]; simpl;
    repeat split; auto; discriminate.
Qed.

Lemma peak_hours_weather_witness :
  (17 <= 18 <= 20)%Z /\
  Delivery.condition
    (snd (Random.run (Delivery.check_weather_conditions 18 "Pune, 18:00")
            [4%nat]))
  <> "Clear Weather".
Proof.
  split; [lia|].
  apply (peak_hours_weather 18 "Pune, 18:00" [4%nat]). lia.
Defined.

(** ** Edge cases and natural responses *)

Section EdgeFacts.

Import Edge.

Lemma existsb_false_filter {A : Type} (f : A -> bool) (l : list A) :
  existsb f l = false -> filter f l = [].
Proof.
  induction l as [|a l IH]; simpl; trivial.
  destruct (f a); [discriminate | exact IH].
Qed.

Lemma existsb_true_filter {A : Type} (f : A -> bool) (l : list A) :
  existsb f l = true -> filter f l <> [].
Proof.
  induction l as [|a l IH]; simpl; [discriminate|].
  destruct (f a); [discriminate | exact IH].
Qed.

(** The slang loop, from any state: it appends the keys that occur, in the
    order of the map, and leaves the text alone when none does. *)
Lemma translate_loop (s : string) (l : list (string * string))
  (t : string) (f : list string) :
  let step := fun (st : string * list string) (entry : string * string) =>
                let '(translated_message, slang_found) := st in
                let '(slang, meaning) := entry in
                if contains slang s
                then (PyText.replace slang meaning translated_message,
                      (slang_found ++ [slang])%list)
                else st in
  snd (fold_left step l (t, f))
  = (f ++ filter (fun k => contains k s) (map fst l))%list /\
  (existsb (fun k => contains k s) (map fst l) = false ->
   fst (fold_left step l (t, f)) = t).
Proof.
  cbv zeta. revert t f. induction l as [|[k v] l IH]; intros t f; simpl.
  - now rewrite app_nil_r.
  - destruct (contains k s) eqn:C; simpl.
    + destruct (IH (PyText.replace k v t) (f ++ [k])%list) as [H1 _].
      rewrite H1, <- app_assoc. split; [reflexivity | discriminate].
    + apply IH.
Qed.

Lemma translate_found (s : string) :
  snd (translate s) = filter (fun k => contains k s) (map fst slang_map) /\
  (any_in (map fst slang_map) s = false -> fst (translate s) = s).
Proof.
  unfold translate. destruct (translate_loop s slang_map s []) as [H1 H2].
  cbv zeta in H1, H2. split; [exact H1 | exact H2].
Qed.

End EdgeFacts.

(** X9: answering a message that holds a humor indicator ("lol", "haha",
    "funny", ...) through [generate_natural_response] raises KeyError: the
    dict [handle_edge_cases] returns for humor has no "is_vague" key.  For
    every other message the dict holds the key "has_humor" with the value
    False, so a text is returned and the playful branch is never taken. *)
Theorem humor_breaks_natural_response (message issue_type : string)
  (g : Random.state) :
  let info := Edge.handle_edge_cases message in
  let r := Random.run (Edge.generate_natural_response issue_type info) g in
  (AnyIn Edge.humor_indicators (lower message) ->
   Edge.item info "is_vague" = None /\ r = Edge.KeyError "is_vague") /\
  (~ AnyIn Edge.humor_indicators (lower message) ->
   Edge.item info "has_humor" = Some (Edge.PBool false) /\
   exists text, r = Edge.Text text).
Proof.
  cbv zeta. unfold Edge.handle_edge_cases. cbv zeta.
  rewrite <- any_in_iff.
  destruct (any_in Edge.humor_indicators (lower message)) eqn:H.
  - split; [intros _ | intros C; exfalso; apply C; reflexivity].
    split; reflexivity.
  - split; [intros C; discriminate C | intros _].
    unfold any_in in H. rewrite (existsb_false_filter _ _ H).
    destruct (Edge.translate (lower message)) as [t f].
    set (vague := any_in Edge.vague_indicators (lower message)
                  && (PyText.word_count message <? 8)%nat).
    set (incomplete := (PyText.word_count message <? 5)%nat
                       || any_in Edge.question_words (lower message)).
    split; [reflexivity|].
    unfold Edge.generate_natural_response.
    cbn [Edge.item String.eqb Ascii.eqb Bool.eqb].
    destruct f as [|k f].
    + destruct vague;
        cbn [String.eqb Ascii.eqb Bool.eqb Edge.truthy List.length Nat.ltb Nat.leb].
      * eexists. rewrite run_bind. reflexivity.
      * eexists. reflexivity.
    + eexists. reflexivity.
Qed.

(** X10: without a humor indicator the answer of [generate_natural_response]
    to the dict of [handle_edge_cases] is decided by slang first: a slang key
    in the lowercased message gives the casual line of the issue type (the
    default line for an unknown type), however vague the message; without
    slang, a vague word in a message of fewer than 8 words gives one of the
    three empathetic lines, and anything else the professional line. *)
Theorem natural_response_by_style (message issue_type : string)
  (g : Random.state) :
  ~ AnyIn Edge.humor_indicators (lower message) ->
  let r := Random.run
             (Edge.generate_natural_response issue_type
                (Edge.handle_edge_cases message)) g in
  let vague := AnyIn Edge.vague_indicators (lower message) /\
               PyText.word_count message < 8 in
  (AnyIn (map fst Edge.slang_map) (lower message) ->
   r = Edge.Text (PyNum.get Edge.casual_intros issue_type
                    "My bad, let me make this right for you!")) /\
  (~ AnyIn (map fst Edge.slang_map) (lower message) -> vague ->
   exists text, r = Edge.Text text /\ In text Edge.empathetic_responses) /\
  (~ AnyIn (map fst Edge.slang_map) (lower message) -> ~ vague ->
   r = Edge.Text Edge.professional_response).
Proof.
  intros Hh. cbv zeta. apply any_in_false_iff in Hh.
  unfold Edge.handle_edge_cases. cbv zeta. rewrite Hh.
  unfold any_in in Hh. rewrite (existsb_false_filter _ _ Hh).
  destruct (translate_found (lower message)) as [Hf _].
  destruct (Edge.translate (lower message)) as [t f]. cbn [snd] in Hf.
  rewrite <- !any_in_iff, <- Nat.ltb_lt.
  set (incomplete := (PyText.word_count message <? 5)%nat
                     || any_in Edge.question_words (lower message)).
  unfold Edge.generate_natural_response.
  cbn [Edge.item String.eqb Ascii.eqb Bool.eqb].
  assert (Hs : any_in (map fst Edge.slang_map) (lower message) = true
               <-> f <> []).
  { unfold any_in. rewrite Hf. split.
    - apply existsb_true_filter.
    - intros Hne.
      destruct (existsb (fun w => contains w (lower message))
                  (map fst Edge.slang_map)) eqn:E; trivial.
      now rewrite (existsb_false_filter _ _ E) in Hne. }
  destruct f as [|k f].
  - assert (Hn : any_in (map fst Edge.slang_map) (lower message) = false).
    { destruct (any_in (map fst Edge.slang_map) (lower message)); trivial.
      exfalso. now apply (proj1 Hs). }
    rewrite Hn.
    generalize (any_in Edge.vague_indicators (lower message)) as v1.
    generalize (PyText.word_count message <? 8)%nat as v2.
    intros v2 v1.
    cbn [String.eqb Ascii.eqb Bool.eqb Edge.truthy List.length Nat.ltb Nat.leb].
    destruct v1, v2; cbn [andb];
      (split; [intros C; discriminate C|]); split; intros _ Hv;
      try (exfalso; apply Hv; auto; fail);
      try (destruct Hv as [Hv1 Hv2]; discriminate);
      try reflexivity.
    eexists. rewrite run_bind. split; [reflexivity|].
    apply pick_In. discriminate.
  - assert (Hn : any_in (map fst Edge.slang_map) (lower message) = true).
    { apply Hs. discriminate. }
    rewrite Hn. split; [intros _; reflexivity|].
    split; intros C; exfalso; apply C; reflexivity.
Qed.

Lemma natural_response_by_style_witness :
  ~ AnyIn Edge.humor_indicators (lower "The food is mid, no cap") /\
  Random.run
    (Edge.generate_natural_response "cold_food"
       (Edge.handle_edge_cases "The food is mid, no cap")) []
  = Edge.Text "Cold food is just... nah. That's not it, chief. Let me fix this for real".
Proof.
  assert (H : ~ AnyIn Edge.humor_indicators (lower "The food is mid, no cap")).
  { apply any_in_false_iff. vm_compute. reflexivity. }
  split; [exact H|].
  refine (proj1 (natural_response_by_style "The food is mid, no cap"
                   "cold_food" [] H) _).
  apply any_in_iff. vm_compute. reflexivity.
Defined.

(** X11: the slang [handle_edge_cases] lists is exactly the keys of its map
    that occur in the lowercased message, in the order of the map; when none
    occurs the translated message is the lowercased message and the style is
    professional, otherwise the style is casual. *)
Theorem slang_detected_keys (message : string) :
  ~ AnyIn Edge.humor_indicators (lower message) ->
  let info := Edge.handle_edge_cases message in
  let found := filter (fun k => contains k (lower message))
                      (map fst Edge.slang_map) in
  Edge.item info "slang_detected" = Some (Edge.PList found) /\
  (found = [] ->
   Edge.item info "translated_message" = Some (Edge.PStr (lower message)) /\
   Edge.item info "response_style" = Some (Edge.PStr "professional")) /\
  (found <> [] ->
   Edge.item info "response_style" = Some (Edge.PStr "casual")) /\
  Edge.item info "original_message" = Some (Edge.PStr message).
Proof.
  intros Hh. cbv zeta. apply any_in_false_iff in Hh.
  unfold Edge.handle_edge_cases. cbv zeta. rewrite Hh.
  destruct (translate_found (lower message)) as [Hf Ht].
  destruct (Edge.translate (lower message)) as [t f]. cbn [fst snd] in Hf, Ht.
  rewrite <- Hf.
  cbn [Edge.item String.eqb Ascii.eqb Bool.eqb].
  split; [reflexivity|]. split; [|split; [|reflexivity]].
  - intros ->. split; [|reflexivity]. f_equal. f_equal. apply Ht. unfold any_in.
    destruct (existsb (fun w => contains w (lower message))
                (map fst Edge.slang_map)) eqn:E; trivial.
    apply existsb_true_filter in E. now rewrite <- Hf in E.
  - intros Hne. destruct f; [congruence | reflexivity].
Qed.

Lemma slang_detected_keys_witness :
  ~ AnyIn Edge.humor_indicators (lower "no cap this is cap bet") /\
  Edge.item (Edge.handle_edge_cases "no cap this is cap bet") "slang_detected"
  = Some (Edge.PList ["this is cap"; "no cap"; "bet"]).
Proof.
  assert (H : ~ AnyIn Edge.humor_indicators (lower "no cap this is cap bet")).
  { apply any_in_false_iff. vm_compute. reflexivity. }
  split; [exact H|].
  exact (proj1 (slang_detected_keys "no cap this is cap bet" H)).
Defined.

(** ** More on refunds, vouchers and the negotiation *)

Section MoreRefundFacts.

Import Tools.
Open Scope Z_scope.

(** The tier and the approval of a refund calculation. *)
Lemma refund_approval_fields (ov : Z) (issue_type expectation : string)
  (g : Random.state) :
  let r := Random.run
             (calculate_dynamic_refund_amount ov issue_type expectation) g in
  tier r = snd (refund_percentage issue_type expectation) /\
  pre_approved r = (2 * refund_amount r <=? ov).
Proof.
  cbv zeta. unfold calculate_dynamic_refund_amount.
  destruct (refund_percentage issue_type expectation) as [p t]; cbn [snd].
  rewrite !run_bind. unfold Random.run, Random.ret.
  cbn [fst tier pre_approved refund_amount]. split; reflexivity.
Qed.

(** The three percentages of an issue type: minimum, capped maximum and
    their mean, by the tier the expectation selects. *)
Lemma refund_percentage_tiers (issue_type expectation : string) :
  let '(cmin, cmax) := PyNum.get compensation_matrix issue_type (40, 60) in
  0 <= cmin <= Z.min cmax 50 /\
  (snd (refund_percentage issue_type expectation) = "maximum (50% cap)" ->
   fst (refund_percentage issue_type expectation) = Z.min cmax 50) /\
  (snd (refund_percentage issue_type expectation) = "minimal" ->
   fst (refund_percentage issue_type expectation) = cmin) /\
  (snd (refund_percentage issue_type expectation) = "standard" ->
   fst (refund_percentage issue_type expectation) = (cmin + Z.min cmax 50) / 2).
Proof.
  unfold refund_percentage.
  generalize (get_cases compensation_matrix issue_type (40, 60)).
  generalize (PyNum.get compensation_matrix issue_type (40, 60)).
  intros [cmin cmax] H. unfold compensation_matrix in H. cbn [map snd In] in H.
  assert (R : 0 <= cmin <= Z.min cmax 50).
  { repeat match type of H with
           | _ \/ _ => destruct H as [H | H]
           end; try contradiction; injection H as H1 H2; subst; lia. }
  split; [exact R|].
  destruct (contains "full refund" (lower expectation)
            || contains "complete" (lower expectation));
    [|destruct (contains "partial" (lower expectation)
                || contains "some" (lower expectation))];
    cbn [fst snd]; repeat split; intros E; try reflexivity; discriminate E.
Qed.

End MoreRefundFacts.

(** X12: for an order value that is not negative the refund of
    [calculate_dynamic_refund_amount] is always pre-approved: the answer
    "Exceeds 50% policy - requires escalation" is never given. *)
Theorem refund_always_pre_approved (ov : Z) (issue_type expectation : string)
  (g : Random.state) :
  (0 <= ov)%Z ->
  Tools.pre_approved
    (Random.run
       (Tools.calculate_dynamic_refund_amount ov issue_type expectation) g)
  = true.
Proof.
  intros Hov.
  destruct (refund_approval_fields ov issue_type expectation g) as [_ ->].
  destruct (refund_fields ov issue_type expectation g) as (_ & -> & _).
  pose proof (refund_percentage_range issue_type expectation) as Hp.
  destruct (int_div_percent_bound ov
              (fst (Tools.refund_percentage issue_type expectation)) 50 Hov Hp)
    as [_ H].
  apply Z.leb_le. lia.
Qed.

Lemma refund_always_pre_approved_witness :
  (0 <= 480)%Z /\
  Tools.pre_approved
    (Random.run
       (Tools.calculate_dynamic_refund_amount 480 "spilled_food" "full refund")
       [])
  = true.
Proof.
  split; [lia|].
  apply (refund_always_pre_approved 480 "spilled_food" "full refund" []). lia.
Defined.

(** X13: for one issue type and one order value that is not negative, an
    expectation served at the minimal tier never gets more than one served
    at the standard tier, and that one never more than one served at the
    maximum tier, in percentage and in amount. *)
Theorem refund_tiers_ordered (ov : Z) (issue_type e_min e_std e_max : string)
  (g1 g2 g3 : Random.state) :
  let r_min := Random.run
                 (Tools.calculate_dynamic_refund_amount ov issue_type e_min) g1 in
  let r_std := Random.run
                 (Tools.calculate_dynamic_refund_amount ov issue_type e_std) g2 in
  let r_max := Random.run
                 (Tools.calculate_dynamic_refund_amount ov issue_type e_max) g3 in
  Tools.tier r_min = "minimal" ->
  Tools.tier r_std = "standard" ->
  Tools.tier r_max = "maximum (50% cap)" ->
  (0 <= ov)%Z ->
  (Tools.percentage r_min <= Tools.percentage r_std <= Tools.percentage r_max /\
   Tools.refund_amount r_min <= Tools.refund_amount r_std
   <= Tools.refund_amount r_max)%Z.
Proof.
  cbv zeta.
  destruct (refund_approval_fields ov issue_type e_min g1) as [-> _].
  destruct (refund_approval_fields ov issue_type e_std g2) as [-> _].
  destruct (refund_approval_fields ov issue_type e_max g3) as [-> _].
  destruct (refund_fields ov issue_type e_min g1) as (-> & -> & _).
  destruct (refund_fields ov issue_type e_std g2) as (-> & -> & _).
  destruct (refund_fields ov issue_type e_max g3) as (-> & -> & _).
  pose proof (refund_percentage_tiers issue_type e_min) as T1.
  pose proof (refund_percentage_tiers issue_type e_std) as T2.
  pose proof (refund_percentage_tiers issue_type e_max) as T3.
  destruct (PyNum.get Tools.compensation_matrix issue_type (40, 60)%Z)
    as [cmin cmax].
  destruct T1 as (R & _ & T1 & _). destruct T2 as (_ & _ & _ & T2).
  destruct T3 as (_ & T3 & _).
  intros H1 H2 H3 Hov. rewrite (T1 H1), (T2 H2), (T3 H3).
  assert (P : (cmin <= (cmin + Z.min cmax 50) / 2 <= Z.min cmax 50)%Z).
  { pose proof (Z.div_mod (cmin + Z.min cmax 50) 2 ltac:(lia)).
    pose proof (Z.mod_pos_bound (cmin + Z.min cmax 50) 2 ltac:(lia)). lia. }
  split; [exact P|].
  unfold PyNum.int_div.
  split; apply Z.quot_le_mono; try lia; apply Z.mul_le_mono_nonneg_l; lia.
Qed.

Lemma refund_tiers_ordered_witness :
  (Tools.refund_amount
     (Random.run
        (Tools.calculate_dynamic_refund_amount 500 "cold_food" "partial") [])
   <= Tools.refund_amount
        (Random.run
           (Tools.calculate_dynamic_refund_amount 500 "cold_food" "fair") [])
   <= Tools.refund_amount
        (Random.run
           (Tools.calculate_dynamic_refund_amount 500 "cold_food" "full refund")
           []))%Z.
Proof.
  refine (proj2 (refund_tiers_ordered 500 "cold_food" "partial" "fair"
                   "full refund" [] [] [] _ _ _ _));
    vm_compute; try reflexivity; discriminate.
Defined.

(** X14: the order value [gather_compensation_details] reports is always
    positive: a value of 0 read from the text is replaced by a default. *)
Theorem gathered_order_value_positive (q : string) (g : Random.state) :
  (0 < Tools.g_order_value
         (Random.run (Tools.gather_compensation_details q) g))%Z.
Proof.
  rewrite gather_order_value.
  destruct (Tools.falsy (Tools.gather_extract q)) eqn:F.
  - pose proof (choice_In [250; 350; 450; 550; 650; 750; 850; 950]%Z g
                  ltac:(discriminate)) as H.
    simpl in H. lia.
  - rewrite gather_extract_eq in *.
    destruct (Re.search Re.amount_pattern (lower q)) as [d|]; simpl in *;
      [|discriminate].
    pose proof (int_of_digits_nonneg d). apply Z.eqb_neq in F. lia.
Qed.

(** X15: the voucher amounts of [offer_goodwill_voucher] are exact
    percentages of the order value drawn, and the maximum it announces is
    the initial voucher plus exactly 20 percent of the order value. *)
Theorem goodwill_voucher_exact (issue_type level : string) (g : Random.state) :
  let v := Random.run (Tools.offer_goodwill_voucher issue_type level) g in
  (100 * Tools.initial_voucher v
   = Tools.v_order_value v * Tools.voucher_percentage v /\
   100 * Tools.max_voucher v
   = Tools.v_order_value v * Tools.escalation_percentage v /\
   Tools.escalation_percentage v = Tools.voucher_percentage v + 20 /\
   100 * (Tools.max_voucher v - Tools.initial_voucher v)
   = 20 * Tools.v_order_value v /\
   Tools.initial_voucher v < Tools.max_voucher v)%Z.
Proof.
  cbv zeta. unfold Tools.offer_goodwill_voucher.
  rewrite run_bind.
  pose proof (choice_In [200; 300; 400; 500; 600; 700; 800]%Z g
                ltac:(discriminate)) as Hov.
  revert Hov.
  generalize (fst (Random.choice [200; 300; 400; 500; 600; 700; 800]%Z g)).
  intros ov Hov. cbn [In] in Hov.
  destruct (mem (lower level) ["extremely dissatisfied"; "very upset"; "angry"]);
    [|destruct (mem (lower level) ["dissatisfied"; "unhappy"])];
    rewrite run_bind; unfold Random.run, Random.ret;
    cbn [fst Tools.v_order_value Tools.voucher_percentage
         Tools.escalation_percentage Tools.initial_voucher Tools.max_voucher];
    unfold PyNum.int_div;
    repeat match type of Hov with
           | _ \/ _ => destruct Hov as [<- | Hov]
           | False => contradiction
           end; vm_compute; repeat split; congruence.
Qed.

(** X16: above an order value of 600 the third offer of
    [negotiate_fair_compensation] is the first offer plus 60 and stays
    strictly below half of the order value, whatever the issue; up to an
    order value of 171 it is exactly the truncated half. *)
Theorem third_offer_by_order_value (d : string) (g : Random.state) :
  let n := Random.run (Tools.negotiate_fair_compensation d) g in
  ((600 < Tools.order_value n ->
    Tools.tier_3_offer n = Tools.tier_1_offer n + 60 /\
    100 * Tools.tier_3_offer n < 50 * Tools.order_value n) /\
   (Tools.order_value n <= 171 ->
    Tools.tier_3_offer n = PyNum.int_mul_tenths (Tools.order_value n) 5) /\
   Tools.tier_2_offer n <= Tools.tier_1_offer n + 30 /\
   Tools.tier_3_offer n <= Tools.tier_1_offer n + 60)%Z.
Proof.
  cbv zeta.
  destruct (negotiation_fields d g) as (-> & _ & _ & -> & -> & -> & _).
  pose proof (negotiate_extract_nonneg d) as Hov.
  pose proof (negotiate_issue_percentage d) as Hp. simpl in Hp.
  unfold PyNum.int_div, PyNum.int_mul_tenths.
  rewrite !Z.quot_div_nonneg by lia.
  set (ov := Tools.negotiate_extract d) in *.
  set (p := snd (Tools.negotiate_issue d)) in *.
  pose proof (Z.div_mod (ov * p) 100 ltac:(lia)) as E1.
  pose proof (Z.mod_pos_bound (ov * p) 100 ltac:(lia)) as B1.
  pose proof (Z.div_mod (ov * 4) 10 ltac:(lia)) as E4.
  pose proof (Z.mod_pos_bound (ov * 4) 10 ltac:(lia)) as B4.
  pose proof (Z.div_mod (ov * 5) 10 ltac:(lia)) as E5.
  pose proof (Z.mod_pos_bound (ov * 5) 10 ltac:(lia)) as B5.
  repeat split; intros; lia.
Qed.

(** ** The two readers of the order value *)

Section ReaderFacts.

Import Re ReFacts Tools.

Lemma lower_char_digit (c : ascii) : is_digit (lower_char c) = is_digit c.
Proof.
  unfold lower_char. cbv zeta.
  destruct ((65 <=? nat_of_ascii c)%nat && (nat_of_ascii c <=? 90)%nat) eqn:E;
    trivial.
  apply andb_true_iff in E. destruct E as [E1 E2].
  apply Nat.leb_le in E1. apply Nat.leb_le in E2.
  unfold is_digit. cbv zeta. rewrite nat_ascii_embedding by lia.
  assert (F1 : (nat_of_ascii c + 32 <=? 57)%nat = false)
    by (apply Nat.leb_gt; lia).
  assert (F2 : (nat_of_ascii c <=? 57)%nat = false)
    by (apply Nat.leb_gt; lia).
  now rewrite F1, F2, !andb_false_r.
Qed.

Lemma lower_char_of_digit (c : ascii) : is_digit c = true -> lower_char c = c.
Proof.
  unfold is_digit, lower_char. cbv zeta. intros H.
  apply andb_true_iff in H. destruct H as [_ H]. apply Nat.leb_le in H.
  assert (F : (65 <=? nat_of_ascii c)%nat = false) by (apply Nat.leb_gt; lia).
  now rewrite F.
Qed.

(** A byte above the ASCII range is met after lowering only where it was. *)
Lemma eqb_lower_high (c0 c : ascii) :
  (128 <= nat_of_ascii c0)%nat ->
  Ascii.eqb c0 (lower_char c) = Ascii.eqb c0 c.
Proof.
  intros H0. unfold lower_char. cbv zeta.
  destruct ((65 <=? nat_of_ascii c)%nat && (nat_of_ascii c <=? 90)%nat) eqn:E;
    trivial.
  apply andb_true_iff in E. destruct E as [E1 E2].
  apply Nat.leb_le in E1. apply Nat.leb_le in E2.
  assert (F1 : Ascii.eqb c0 (ascii_of_nat (nat_of_ascii c + 32)) = false).
  { apply Ascii.eqb_neq. intros ->.
    rewrite nat_ascii_embedding in H0 by lia. lia. }
  assert (F2 : Ascii.eqb c0 c = false).
  { apply Ascii.eqb_neq. intros ->. lia. }
  now rewrite F1, F2.
Qed.

Lemma literal_rupee_lower (s : string) :
  literal rupee_sign (lower s) = option_map lower (literal rupee_sign s).
Proof.
  unfold rupee_sign.
  destruct s as [|c1 [|c2 [|c3 s]]]; try reflexivity;
    cbn [literal lower];
    rewrite ?eqb_lower_high by (vm_compute; lia);
    repeat match goal with
           | |- context [if ?b then _ else _] => destruct b
           end; reflexivity.
Qed.

Lemma digit_run_lower (s : string) :
  digit_run (lower s) = (fst (digit_run s), lower (snd (digit_run s))).
Proof.
  induction s as [|c s IH]; simpl; trivial.
  rewrite lower_char_digit. destruct (is_digit c) eqn:E; [|reflexivity].
  rewrite IH, (lower_char_of_digit c E).
  destruct (digit_run s); reflexivity.
Qed.

Lemma symbol_amount_lower (s : string) :
  symbol_amount (lower s) = symbol_amount s.
Proof.
  unfold symbol_amount. rewrite literal_rupee_lower.
  destruct (literal rupee_sign s) as [r|]; simpl; trivial.
  unfold digits1. rewrite digit_run_lower.
  destruct (digit_run r) as [[|c d] r']; reflexivity.
Qed.

Lemma search_symbol_lower (s : string) :
  search symbol_amount (lower s) = search symbol_amount s.
Proof.
  induction s as [|c s IH].
  - reflexivity.
  - change (lower (String c s)) with (String (lower_char c) (lower s)).
    cbn [search].
    change (String (lower_char c) (lower s)) with (lower (String c s)).
    now rewrite symbol_amount_lower, IH.
Qed.

(** Where neither "rs" nor "rupees" occurs, only the rupee sign marks an
    amount. *)
Lemma search_amount_symbol (t : string) :
  contains "rs" t = false -> contains "rupees" t = false ->
  search amount_pattern t = search symbol_amount t.
Proof.
  induction t as [|c t IH]; intros H1 H2.
  - reflexivity.
  - assert (R : rs_amount (String c t) = None).
    { destruct (rs_amount (String c t)) as [d|] eqn:E; trivial.
      apply rs_amount_iff in E. destruct E as (sp & r & E & _).
      assert (C : contains "rs" (String c t) = true).
      { apply contains_iff. exists "", (sp ++ d ++ r). exact E. }
      congruence. }
    assert (A : amount_rupees (String c t) = None).
    { destruct (amount_rupees (String c t)) as [d|] eqn:E; trivial.
      apply amount_rupees_iff in E. destruct E as (sp & r & E & _).
      assert (C : contains "rupees" (String c t) = true).
      { apply contains_iff. exists (d ++ sp), r.
        rewrite E. now rewrite !append_assoc. }
      congruence. }
    cbn [contains] in H1, H2.
    apply orb_false_iff in H1. apply orb_false_iff in H2.
    cbn [search]. unfold amount_pattern at 1. rewrite R, A.
    rewrite (IH (proj2 H1) (proj2 H2)).
    destruct (symbol_amount (String c t)); reflexivity.
Qed.

End ReaderFacts.

(** X17: on a text whose lowercased form holds neither "rs" nor "rupees" and
    in which a rupee sign is followed by digits of a value other than 0,
    [gather_compensation_details] and [negotiate_fair_compensation] work on
    the same order value, the one after the leftmost such sign; with "rs" in
    the text they can differ. *)
Theorem readers_agree_on_rupee_sign :
  (forall q digits g1 g2,
     ~ Substring "rs" (lower q) -> ~ Substring "rupees" (lower q) ->
     Re.search Re.symbol_amount q = Some digits ->
     Re.int_of_digits digits <> 0%Z ->
     Tools.g_order_value (Random.run (Tools.gather_compensation_details q) g1)
     = Re.int_of_digits digits /\
     Tools.order_value (Random.run (Tools.negotiate_fair_compensation q) g2)
     = Re.int_of_digits digits) /\
  Tools.g_order_value
    (Random.run (Tools.gather_compensation_details "orders 12 and 13: ₹20") [])
  = 12%Z /\
  Tools.order_value
    (Random.run (Tools.negotiate_fair_compensation "orders 12 and 13: ₹20") [])
  = 20%Z.
Proof.
  split; [|vm_compute; split; reflexivity].
  intros q digits g1 g2 H1 H2 S Hz.
  rewrite <- contains_iff in H1, H2.
  apply not_true_is_false in H1. apply not_true_is_false in H2.
  split.
  - rewrite gather_order_value, gather_extract_eq.
    rewrite search_amount_symbol, search_symbol_lower, S by trivial.
    simpl. apply Z.eqb_neq in Hz. now rewrite Hz.
  - destruct (negotiation_fields q g2) as (-> & _).
    now rewrite negotiate_extract_eq, S.
Qed.

Lemma readers_agree_on_rupee_sign_witness :
  Tools.g_order_value
    (Random.run (Tools.gather_compensation_details "I paid ₹450, it was cold")
       [])
  = 450%Z /\
  Tools.order_value
    (Random.run (Tools.negotiate_fair_compensation "I paid ₹450, it was cold")
       [])
  = 450%Z.
Proof.
  refine (proj1 readers_agree_on_rupee_sign "I paid ₹450, it was cold" "450"
            [] [] _ _ _ _).
  - rewrite <- contains_iff. vm_compute. discriminate.
  - rewrite <- contains_iff. vm_compute. discriminate.
  - vm_compute. reflexivity.
  - vm_compute. discriminate.
Defined.

(** ** Severity, evidence, feedback, policy *)

(** X18: the severity score of [orchestrate_resolution_plan] lies between 25
    and 135, so it can pass the 100 it is printed against; a critical word
    ("spilled", "sick", ...) always gives the level premium_plus, and so does
    "disgusted", which counts as a major failure and as anger at once; the
    level is basic exactly for a minor concern without repeat language. *)
Theorem severity_score_range (m : string) :
  let s := lower m in
  let p := Orchestrate.orchestrate_resolution_plan m in
  (25 <= Orchestrate.plan_score p <= 135)%Z /\
  (AnyIn ["spilled"; "poisoned"; "allergic"; "sick"; "emergency"] s ->
   Orchestrate.plan_compensation_level p = "premium_plus") /\
  (Substring "disgusted" s ->
   Orchestrate.plan_compensation_level p = "premium_plus") /\
  (Orchestrate.plan_compensation_level p = "basic" <->
   Orchestrate.severity_score (Orchestrate.classify_severity s) = 25%Z /\
   ~ AnyIn Orchestrate.repeat_words s) /\
  In (Orchestrate.plan_emotional_indicators p)
     [ []; ["high_anger"]; ["frustration"]; ["repeat_issue"];
       ["high_anger"; "repeat_issue"]; ["frustration"; "repeat_issue"] ].
Proof.
  cbv zeta.
  assert (Hd : Substring "disgusted" (lower m) ->
               any_in ["wrong order"; "missing"; "damaged"; "terrible"; "awful";
                       "disgusted"] (lower m) = true /\
               any_in Orchestrate.anger_words (lower m) = true).
  { intros H. split; apply any_in_iff;
      apply AnyIn_intro with (w := "disgusted"); simpl; auto 7. }
  unfold Orchestrate.orchestrate_resolution_plan, Orchestrate.score,
    Orchestrate.detect_repeat, Orchestrate.detect_emotion, Orchestrate.flag,
    Orchestrate.classify_severity.
  cbv zeta. rewrite <- !any_in_iff.
  revert Hd.
  generalize (any_in ["spilled"; "poisoned"; "allergic"; "sick"; "emergency"]
                (lower m)) as c1.
  generalize (any_in ["wrong order"; "missing"; "damaged"; "terrible"; "awful";
                      "disgusted"] (lower m)) as c2.
  generalize (any_in ["cold"; "late"; "delayed"; "poor quality"; "disappointed"]
                (lower m)) as c3.
  generalize (any_in Orchestrate.anger_words (lower m)) as a.
  generalize (any_in Orchestrate.frustration_words (lower m)) as f.
  generalize (any_in Orchestrate.repeat_words (lower m)) as r.
  intros r f a c3 c2 c1 Hd.
  destruct c1, c2, c3, a, f, r; vm_compute;
    repeat split; intros; try lia; try discriminate; try congruence;
    auto 8;
    try (match goal with
         | H : _ /\ _ |- _ => destruct H; congruence
         | H : ?x <> ?x |- _ => congruence
         end);
    try (destruct (Hd ltac:(assumption)); discriminate);
    try (exfalso; intuition congruence).
Qed.

Section EvidenceFacts.

(** The spilled-food keywords are one set in both functions, listed in two
    orders. *)
Lemma spill_keywords_same (s : string) :
  any_in ["spill"; "damage"; "mess"; "leak"] s
  = any_in ["spill"; "damage"; "leak"; "mess"] s.
Proof.
  unfold any_in. cbn [existsb].
  destruct (contains "spill" s), (contains "damage" s), (contains "mess" s),
           (contains "leak" s); reflexivity.
Qed.

Lemma damaged_is_damage (s : string) :
  contains "damaged" s = true -> contains "damage" s = true.
Proof.
  rewrite !contains_iff. apply (Substring_prefix "damage" "d").
Qed.

End EvidenceFacts.

(** X19: the photo [request_visual_evidence] asks for matches the category
    [analyze_customer_situation] reports for the same message: spilled_food
    exactly with "spilled or damaged food", wrong_order exactly with "wrong
    order items", and every packaging_issue with "packaging condition". *)
Theorem evidence_request_matches_category (m category : string) :
  Analyze.categorize m = Some category ->
  (category = "spilled_food" <->
   Support.request_visual_evidence m = "spilled or damaged food") /\
  (category = "wrong_order" <->
   Support.request_visual_evidence m = "wrong order items") /\
  (category = "packaging_issue" ->
   Support.request_visual_evidence m = "packaging condition").
Proof.
  rewrite categorize_eq.
  destruct (any_in Analyze.problem_keywords (lower m)); [|discriminate].
  intros [= <-].
  unfold Support.request_visual_evidence, Analyze.issue_type_of. cbv zeta.
  rewrite spill_keywords_same.
  destruct (any_in ["spill"; "damage"; "leak"; "mess"] (lower m)) eqn:S.
  - repeat split; intros; trivial; discriminate.
  - destruct (any_in ["wrong"; "different"; "mistake"] (lower m)).
    + repeat split; intros; trivial; discriminate.
    + assert (P : any_in ["packaging"; "broken"; "damaged"] (lower m) = true ->
                  any_in ["packaging"; "broken"; "container"] (lower m) = true).
      { unfold any_in in *. cbn [existsb] in *.
        destruct (contains "damaged" (lower m)) eqn:D.
        - apply damaged_is_damage in D. rewrite D in S.
          destruct (contains "spill" (lower m)); discriminate S.
        - destruct (contains "packaging" (lower m)),
                   (contains "broken" (lower m)); simpl; intros H; trivial;
            discriminate H. }
      destruct (any_in ["packaging"; "broken"; "damaged"] (lower m)).
      * rewrite (P eq_refl). repeat split; intros; trivial; discriminate.
      * destruct (any_in ["packaging"; "broken"; "container"] (lower m));
          repeat match goal with
                 | |- context [if ?b then _ else _] => destruct b
                 end; repeat split; intros; trivial; discriminate.
Qed.

Lemma evidence_request_matches_category_witness :
  Analyze.categorize "The box arrived broken" = Some "packaging_issue" /\
  Support.request_visual_evidence "The box arrived broken"
  = "packaging condition".
Proof.
  assert (H : Analyze.categorize "The box arrived broken"
              = Some "packaging_issue") by (vm_compute; reflexivity).
  split; [exact H|].
  exact (proj2 (proj2 (evidence_request_matches_category
                         "The box arrived broken" "packaging_issue" H))
           eq_refl).
Defined.

(** X20: when [analyze_customer_situation] reports a problem without asking
    for a photo, the problem was recognised by "cold", "missing", "terrible"
    or "awful" alone; a packaging_issue always comes with the request. *)
Theorem evidence_not_needed_cases (m issue_type : string) :
  Analyze.analyze_customer_situation m
  = Return (Analyze.ActualProblemDetected issue_type false) ->
  AnyIn ["cold"; "missing"; "terrible"; "awful"] (lower m) /\
  issue_type <> "packaging_issue".
Proof.
  unfold Analyze.analyze_customer_situation. rewrite intent_branches_eq.
  destruct (any_in Analyze.tracking_keywords (lower m)),
           (any_in Analyze.problem_keywords (lower m)) eqn:P;
    cbn [and_then]; try discriminate; intros [= <- E];
    unfold Analyze.issue_type_of;
    unfold any_in, Analyze.problem_keywords, Analyze.evidence_needed_cases in *;
    cbn [existsb] in *;
    rewrite <- any_in_iff; unfold any_in; cbn [existsb];
    destruct (contains "spill" (lower m)); try discriminate E;
    destruct (contains "damage" (lower m)) eqn:D; try discriminate E;
    destruct (contains "wrong" (lower m)); try discriminate E;
    destruct (contains "packaging" (lower m)); try discriminate E;
    destruct (contains "quality" (lower m)); try discriminate E;
    destruct (contains "broken" (lower m)); try discriminate E;
    destruct (contains "mess" (lower m)); try discriminate E;
    destruct (contains "bad" (lower m)); try discriminate E;
    (assert (D' : contains "damaged" (lower m) = false)
       by (destruct (contains "damaged" (lower m)) eqn:D2; trivial;
           apply damaged_is_damage in D2; congruence));
    rewrite D'; simpl in P |- *;
    (split; [rewrite ?orb_false_r in *; exact P|]);
    repeat match goal with
           | |- context [if ?b then _ else _] => destruct b
           end; discriminate.
Qed.

Lemma evidence_not_needed_cases_witness :
  Analyze.analyze_customer_situation "My soup was cold"
  = Return (Analyze.ActualProblemDetected "cold_food" false) /\
  AnyIn ["cold"; "missing"; "terrible"; "awful"] (lower "My soup was cold").
Proof.
  assert (H : Analyze.analyze_customer_situation "My soup was cold"
              = Return (Analyze.ActualProblemDetected "cold_food" false))
    by (vm_compute; reflexivity).
  split; [exact H|].
  exact (proj1 (evidence_not_needed_cases "My soup was cold" "cold_food" H)).
Defined.

Section SupportFacts.

Import PyText.

Lemma lower_app (a b : string) : lower (a ++ b) = lower a ++ lower b.
Proof. induction a; simpl; congruence. Qed.

Lemma Substring_extend (w s a b : string) :
  Substring w s -> Substring w (a ++ s ++ b).
Proof.
  intros (x & y & ->). exists (a ++ x), (y ++ b).
  now rewrite !append_assoc.
Qed.

Lemma AnyIn_extend (ws : list string) (s a b : string) :
  AnyIn ws s -> AnyIn ws (a ++ s ++ b).
Proof.
  intros (w & Hin & H). exists w. split; trivial. now apply Substring_extend.
Qed.

(** [dict.get] on a key the dict lacks gives the default. *)
Lemma get_missing {V : Type} (d : list (string * V)) (key : string)
  (default : V) :
  ~ In key (map fst d) -> PyNum.get d key default = default.
Proof.
  induction d as [|[k v] d IH]; intros H; simpl; trivial.
  destruct (String.eqb k key) eqn:E.
  - apply String.eqb_eq in E. exfalso. apply H. now left.
  - apply IH. intros C. apply H. now right.
Qed.

(** A slice never counts more code points than asked for, is a prefix of the
    text, and is the whole text when that is short enough. *)
Lemma slice_to_spec (n : nat) (s : string) :
  (exists rest, s = slice_to n s ++ rest) /\
  len (slice_to n s) <= n /\
  (len s <= n -> slice_to n s = s).
Proof.
  revert n; induction s as [|c s IH]; intros n; simpl.
  - repeat split; trivial; [now exists "" | lia].
  - destruct (is_continuation c) eqn:E.
    + destruct (IH n) as ((rest & Hr) & Hl & Hs). simpl. rewrite E.
      repeat split.
      * exists rest. now rewrite <- Hr.
      * exact Hl.
      * intros H. now rewrite Hs.
    + destruct n as [|n].
      * repeat split; [now exists (String c s) | simpl; lia | lia].
      * destruct (IH n) as ((rest & Hr) & Hl & Hs). simpl. rewrite E.
        repeat split.
        -- exists rest. now rewrite <- Hr.
        -- lia.
        -- intros H. rewrite Hs; trivial. lia.
Qed.

End SupportFacts.

(** X21: [collect_evidence] calls a complaint complete exactly when its
    lowercased text holds an order word and an issue word; an empty query,
    "null" or "none" in any case is never complete; and a complete complaint
    stays complete whatever text is put before or after it. *)
Theorem complaint_completeness (query : string) :
  let order_words := ["order"; "paid"; "rupees"; "rs"; "$"; "restaurant";
                      "kitchen"] in
  let issue_words := ["wrong"; "late"; "delay"; "cold"; "missing"; "quality";
                      "spilled"] in
  (Support.collect_evidence query = Support.ComplaintAnalysisComplete query <->
   AnyIn order_words (lower query) /\ AnyIn issue_words (lower query)) /\
  (Support.collect_evidence query = Support.InformationGathering <->
   ~ (AnyIn order_words (lower query) /\ AnyIn issue_words (lower query))) /\
  (mem (lower query) ["null"; "none"; ""] = true ->
   Support.collect_evidence query = Support.InformationGathering) /\
  (forall before after,
     Support.collect_evidence query = Support.ComplaintAnalysisComplete query ->
     Support.collect_evidence (before ++ query ++ after)
     = Support.ComplaintAnalysisComplete (before ++ query ++ after)).
Proof.
  cbv zeta.
  assert (P : forall q,
    mem (lower q) ["null"; "none"; ""] = true ->
    any_in ["order"; "paid"; "rupees"; "rs"; "$"; "restaurant"; "kitchen"]
           (lower q) = false).
  { intros q H. unfold mem in H. cbn [existsb] in H.
    destruct (String.eqb (lower q) "null") eqn:E1;
      [apply String.eqb_eq in E1; now rewrite E1|].
    destruct (String.eqb (lower q) "none") eqn:E2;
      [apply String.eqb_eq in E2; now rewrite E2|].
    destruct (String.eqb (lower q) "") eqn:E3;
      [apply String.eqb_eq in E3; now rewrite E3 | discriminate H]. }
  assert (E : forall q,
    (Support.collect_evidence q = Support.ComplaintAnalysisComplete q <->
     any_in ["order"; "paid"; "rupees"; "rs"; "$"; "restaurant"; "kitchen"]
            (lower q)
     && any_in ["wrong"; "late"; "delay"; "cold"; "missing"; "quality";
                "spilled"] (lower q) = true) /\
    (Support.collect_evidence q = Support.InformationGathering <->
     any_in ["order"; "paid"; "rupees"; "rs"; "$"; "restaurant"; "kitchen"]
            (lower q)
     && any_in ["wrong"; "late"; "delay"; "cold"; "missing"; "quality";
                "spilled"] (lower q) = false)).
  { intros q. unfold Support.collect_evidence, Support.effective_query.
    cbv zeta.
    destruct (String.eqb q "" || mem (lower q) ["null"; "none"; ""]) eqn:G.
    - assert (M : mem (lower q) ["null"; "none"; ""] = true).
      { apply orb_true_iff in G. destruct G as [G|G]; trivial.
        apply String.eqb_eq in G. now subst q. }
      rewrite (P q M). cbn [andb].
      split; split; intros H; trivial; discriminate H.
    - destruct (any_in _ (lower q) && any_in _ (lower q));
        split; split; intros H; trivial; discriminate H. }
  rewrite <- !any_in_iff.
  destruct (E query) as [E1 E2].
  split; [|split; [|split]].
  - rewrite E1, andb_true_iff. reflexivity.
  - rewrite E2, <- andb_true_iff.
    destruct (any_in _ (lower query) && any_in _ (lower query)); split;
      intros H; trivial;
      first [ discriminate H | intros C; discriminate C
            | exfalso; apply H; reflexivity ].
  - intros M. apply E2. now rewrite (P query M).
  - intros before after H. apply E1 in H. apply andb_true_iff in H.
    destruct H as [H1 H2]. apply (proj1 (E _)). apply andb_true_iff.
    rewrite !lower_app.
    split; apply any_in_iff; apply AnyIn_extend; now apply any_in_iff.
Qed.

(** X22: the summary [log_customer_feedback] quotes is a prefix of the
    feedback of at most 100 code points, the whole feedback when that has no
    more; the reference number lies between 10000 and 99999; evidence counts
    as attached for every value other than "none". *)
Theorem feedback_summary (feedback_details evidence_provided : string)
  (g : Random.state) :
  let f := Random.run
             (Support.log_customer_feedback feedback_details evidence_provided)
             g in
  (exists rest, feedback_details = Support.summary f ++ rest) /\
  PyText.len (Support.summary f) <= 100 /\
  (PyText.len feedback_details <= 100 ->
   Support.summary f = feedback_details) /\
  (10000 <= Support.feedback_id f <= 99999)%Z /\
  (Support.evidence_attached f = false <-> evidence_provided = "none").
Proof.
  cbv zeta. unfold Support.log_customer_feedback.
  rewrite run_bind. unfold Random.run, Random.ret.
  cbn [fst Support.summary Support.feedback_id Support.evidence_attached].
  destruct (slice_to_spec 100 feedback_details) as (H1 & H2 & H3).
  split; [exact H1|]. split; [exact H2|]. split; [exact H3|].
  split; [apply randint_range; lia|].
  rewrite negb_false_iff. apply String.eqb_eq.
Qed.


(** X24: [explain_business_compensation_policy] explains every issue type
    outside its four keys with the wrong-order policy, coverage "45-60% of
    order value"; so is the issue type general of the negotiation explained,
    and so are the categories spilled_food, packaging_issue, cold_food and
    general_problem of [analyze_customer_situation]. *)
Theorem policy_fallback :
  (forall issue_type,
     ~ In issue_type
          ["wrong_order"; "quality_issue"; "delivery_delay"; "missing_items"] ->
     snd (Support.explain_business_compensation_policy issue_type)
     = Support.wrong_order_policy) /\
  Support.coverage Support.wrong_order_policy = "45-60% of order value" /\
  (forall d g,
     let n := Random.run (Tools.negotiate_fair_compensation d) g in
     In (Tools.issue_type n)
        ["wrong_order"; "quality_issue"; "delivery_delay"; "missing_items";
         "general"] /\
     (Tools.base_percentage n = 25%Z ->
      snd (Support.explain_business_compensation_policy (Tools.issue_type n))
      = Support.wrong_order_policy)) /\
  (forall m category,
     Analyze.categorize m = Some category ->
     In category ["spilled_food"; "packaging_issue"; "cold_food";
                  "general_problem"] ->
     snd (Support.explain_business_compensation_policy category)
     = Support.wrong_order_policy).
Proof.
  assert (F : forall issue_type,
     ~ In issue_type
          ["wrong_order"; "quality_issue"; "delivery_delay"; "missing_items"] ->
     snd (Support.explain_business_compensation_policy issue_type)
     = Support.wrong_order_policy).
  { intros t H. unfold Support.explain_business_compensation_policy.
    cbn [snd]. apply get_missing. exact H. }
  split; [exact F|]. split; [reflexivity|]. split.
  - intros d g. cbv zeta.
    destruct (negotiation_fields d g) as (_ & -> & -> & _).
    unfold Tools.negotiate_issue. cbv zeta.
    repeat match goal with
           | |- context [if ?b then _ else _] => destruct b
           end; cbn [fst snd]; (split; [simpl; auto 7|]); intros H;
      try discriminate H.
    apply F. simpl. intros [C|[C|[C|[C|[]]]]]; discriminate C.
  - intros m c _ H. apply F. simpl in *.
    intros [C|[C|[C|[C|[]]]]]; subst c;
      repeat destruct H as [H|H]; try discriminate H; contradiction.
Qed.

(** X25: a text that holds "wrong" is negotiated as a wrong order, at a base
    of 30 percent, also when it reports a spill, which
    [analyze_customer_situation] categorizes as spilled_food and the
    negotiation would otherwise rate at 40 percent. *)
Theorem wrong_order_precedes_spill (m : string) (g : Random.state) :
  Substring "wrong" (lower m) ->
  let n := Random.run (Tools.negotiate_fair_compensation m) g in
  Tools.issue_type n = "wrong_order" /\
  Tools.base_percentage n = 30%Z /\
  (Substring "spilled" (lower m) ->
   Analyze.categorize m = Some "spilled_food") /\
  (forall m', ~ AnyIn ["wrong"; "incorrect"; "different"] (lower m') ->
              Substring "spilled" (lower m') ->
              forall g',
                Tools.base_percentage
                  (Random.run (Tools.negotiate_fair_compensation m') g')
                = 40%Z).
Proof.
  intros Hw. cbv zeta.
  destruct (negotiation_fields m g) as (_ & -> & -> & _).
  assert (W : any_in ["wrong"; "incorrect"; "different"] (lower m) = true).
  { apply any_in_iff. apply AnyIn_intro with (w := "wrong"); simpl; auto. }
  unfold Tools.negotiate_issue at 1 2. cbv zeta. rewrite W. cbn [fst snd].
  split; [reflexivity|]. split; [reflexivity|]. split.
  - intros Hs.
    assert (A : AnyIn ["spill"; "damage"; "leak"; "mess"] (lower m)).
    { apply AnyIn_intro with (w := "spill"); [simpl; auto|].
      now apply (Substring_prefix "spill" "ed"). }
    assert (P : Analyze.classify m = Some Analyze.PROBLEM).
    { rewrite classify_eq.
      assert (K : any_in Analyze.problem_keywords (lower m) = true).
      { apply any_in_iff. apply AnyIn_intro with (w := "spill");
          [simpl; auto|]. now apply (Substring_prefix "spill" "ed"). }
      rewrite K. now destruct (any_in Analyze.tracking_keywords (lower m)). }
    rewrite categorize_eq.
    rewrite classify_eq in P.
    destruct (any_in Analyze.tracking_keywords (lower m)),
             (any_in Analyze.problem_keywords (lower m)); try discriminate P;
      unfold Analyze.issue_type_of; apply any_in_iff in A; now rewrite A.
  - intros m' Hn Hs g'.
    destruct (negotiation_fields m' g') as (_ & _ & -> & _).
    apply any_in_false_iff in Hn.
    assert (S : any_in ["spilled"; "damaged"; "cold"; "soggy"] (lower m') = true).
    { apply any_in_iff. apply AnyIn_intro with (w := "spilled"); simpl; auto. }
    unfold Tools.negotiate_issue. cbv zeta. now rewrite Hn, S.
Qed.

Lemma wrong_order_precedes_spill_witness :
  Substring "wrong" (lower "Wrong order, and it spilled") /\
  Tools.base_percentage
    (Random.run
       (Tools.negotiate_fair_compensation "Wrong order, and it spilled") [])
  = 30%Z.
Proof.
  assert (H : Substring "wrong" (lower "Wrong order, and it spilled")).
  { apply contains_iff. vm_compute. reflexivity. }
  split; [exact H|].
  exact (proj1 (proj2 (wrong_order_precedes_spill
                         "Wrong order, and it spilled" [] H))).
Defined.

(** X26: without an order value (None or 0) [calculate_dynamic_compensation]
    works on one of its eight estimated order values; for every issue type,
    known or not, the product on doubles truncates to a refund between 0 and
    the order value, and the bonus voucher is one of the matrix. *)
Theorem dynamic_compensation_on_estimates (issue_type : string)
  (order_value : option Z) (g : Random.state) :
  Tools.falsy order_value = true ->
  let c := Random.run
             (Dynamic.calculate_dynamic_compensation issue_type order_value) g in
  In (Dynamic.order_value c) Dynamic.estimated_orders /\
  (exists refund,
     Dynamic.refund_amount c = Some refund /\
     (0 <= refund <= Dynamic.order_value c)%Z /\
     Dynamic.total_compensation c
     = Some (refund + Dynamic.bonus_voucher c)%Z) /\
  In (Dynamic.bonus_voucher c) [50; 30; 20; 15; 25; 10]%Z.
Proof.
  intros F. cbv zeta. unfold Dynamic.calculate_dynamic_compensation.
  rewrite F, run_bind. unfold Random.run, Random.ret.
  pose proof (choice_In Dynamic.estimated_orders g ltac:(discriminate)) as Hov.
  revert Hov. generalize (fst (Random.choice Dynamic.estimated_orders g)).
  intros ov Hov.
  generalize (get_cases Dynamic.compensation_matrix issue_type
                (Dynamic.mkEntry (PyFloat.decimal 5 10) 15 "standard")).
  generalize (PyNum.get Dynamic.compensation_matrix issue_type
                (Dynamic.mkEntry (PyFloat.decimal 5 10) 15 "standard")).
  intros e He.
  unfold Dynamic.total_compensation.
  cbn [fst Dynamic.order_value Dynamic.refund_amount Dynamic.bonus_voucher].
  split; [exact Hov|].
  unfold Dynamic.compensation_matrix in He. cbn [map snd In] in He.
  unfold Dynamic.estimated_orders in Hov. cbn [In] in Hov.
  repeat match type of He with
         | _ \/ _ => destruct He as [He | He]
         | False => contradiction
         end; subst e;
    repeat match type of Hov with
           | _ \/ _ => destruct Hov as [<- | Hov]
           | False => contradiction
           end;
    (split; [eexists; split; [vm_compute; reflexivity|];
             split; [vm_compute; split; discriminate | reflexivity]
            | simpl; auto 8]).
Qed.

Lemma dynamic_compensation_on_estimates_witness :
  Tools.falsy None = true /\
  In (Dynamic.order_value
        (Random.run
           (Dynamic.calculate_dynamic_compensation "poor_quality" None)
           [6%nat]))
     Dynamic.estimated_orders.
Proof.
  split; [reflexivity|].
  exact (proj1 (dynamic_compensation_on_estimates "poor_quality" None
                  [6%nat] eq_refl)).
Defined.
